(** * Order lifecycle of the trading assistant (src/main.py)

    A shallow embedding of [main.py] and the properties of its screener,
    order pricer, reconciliation loop, settlement responder and
    rate-limit guard.

    Modelling conventions.
    - Floats are modelled twice.  Over exact rationals ([Q]), where a decimal
      literal denotes itself, [round(x, n)] is round-half-to-even at the n-th
      decimal and [==], [<], [>] are the decidable comparisons of [Q]: this
      reading carries the properties that do not turn on the last bit of a
      float (what raises, which calls are made and in which order, error
      bounds of the rounding).  Over IEEE 754 binary64 (module [B64]), where
      arithmetic, comparison and [round] are what CPython computes: this
      reading carries the properties that say which decision is taken and
      which price is submitted.  The two differ at decimal ties and where a
      quotient is not exact.  In both, a division whose divisor is zero
      raises [ZeroDivisionError].
    - The brokerage client ([tinvest]) is an external collaborator: a record
      of transition functions over an abstract gateway state.  Every outbound
      call is recorded, in program order, in the trace of events that a
      computation returns.
    - Python exceptions are the [Raise] results of a state-and-error monad.
    - Console output ([print], [print_log]) has no model of its own; the
      arguments of a format call are still evaluated, since evaluating them
      can raise. *)

From Stdlib Require Import ZArith QArith Qround Qabs Bool List String Ascii.
From Stdlib Require Import Lia Lqa DecimalPos DecimalString.
From Stdlib Require PrimFloat SpecFloat FloatOps.
Import ListNotations.

Open Scope Z_scope.
Open Scope Q_scope.
Open Scope list_scope.

(** ** Floats *)

Definition float := Q.

Definition feq (x y : float) : bool := Qeq_bool x y.
Definition fle (x y : float) : bool := Qle_bool x y.
Definition flt (x y : float) : bool := negb (Qle_bool y x).
Definition fgt (x y : float) : bool := flt y x.

(** Nearest integer, ties to the even neighbour. *)
Definition round_half_even (x : Q) : Z :=
  let f := Qfloor x in
  match Qcompare (x - inject_Z f) (1 # 2) with
  | Lt => f
  | Gt => (f + 1)%Z
  | Eq => if Z.even f then f else (f + 1)%Z
  end.

Definition pow10 (n : nat) : Q := inject_Z (10 ^ Z.of_nat n).

(** Python's [round(x, ndigits)]. *)
Definition py_round (x : float) (ndigits : nat) : float :=
  Qred (inject_Z (round_half_even (x * pow10 ndigits)) / pow10 ndigits).

(** def round_float(x): return round(x, 3) *)
Definition round_float (x : float) : float := py_round x 3.

(** def float_eq(x, y): return round(x, 3) == round(y, 3) *)
Definition float_eq (x y : float) : bool := feq (py_round x 3) (py_round y 3).

(** ** Schemas of the brokerage client, as far as the program reads them *)

Inductive OperationType := buy | sell.

Inductive OperationStatus := done | decline | progress.

(** [Currency.rub] and [Currency.usd] are the two members the program names. *)
Inductive Currency := rub | usd | other_currency (code : string).

Record OrderResponse := { price : float; quantity : Z }.

Record Orderbook := {
  asks : list OrderResponse;
  bids : list OrderResponse;
  ob_last_price : option float;
  ob_close_price : option float;
  ob_min_price_increment : float
}.

Record MarketInstrument := {
  mi_figi : string;
  mi_ticker : string;
  mi_currency : Currency;
  mi_min_price_increment : float
}.

Record LimitOrderRequest := {
  lo_price : float;
  lo_lots : Z;
  lo_operation : OperationType
}.

Record Order := {
  order_id : string;
  order_figi : string;
  order_operation : OperationType;
  order_price : float;
  requested_lots : Z
}.

Record Operation := {
  op_figi : string;
  op_status : OperationStatus;
  operation_type : OperationType;
  op_quantity : Z
}.

Record Response (A : Type) := { status_code : Z; payload : A }.
Arguments status_code {A} _.
Arguments payload {A} _.

Definition OperationType_eqb (a b : OperationType) : bool :=
  match a, b with
  | buy, buy | sell, sell => true
  | _, _ => false
  end.

Definition OperationStatus_eqb (a b : OperationStatus) : bool :=
  match a, b with
  | done, done | decline, decline | progress, progress => true
  | _, _ => false
  end.

(** ** Exceptions *)

Inductive exn :=
| Exception_int (arg : Z)        (* raise Exception(info.status_code) *)
| Exception_str (arg : string)   (* raise Exception("...") *)
| ZeroDivisionError
| TypeError
| AttributeError
| IndexError.

(** [str(e)]: the argument of [Exception], printed; the interpreter's message
    for the built-in errors. *)
Definition str_exn (e : exn) : string :=
  match e with
  | Exception_int n => NilZero.string_of_int (Z.to_int n)
  | Exception_str s => s
  | ZeroDivisionError => "float division by zero"
  | TypeError => "unsupported operand type(s)"
  | AttributeError => "'NoneType' object has no attribute"
  | IndexError => "list index out of range"
  end.

(** ** Outbound calls *)

Inductive event :=
| EOrderbookGet (figi : string) (depth : Z)
| ESearchByFigi (figi : string)
| EOrdersGet
| ECancel (id : string)
| ELimitOrderPost (figi : string) (body : LimitOrderRequest)
| EOperationsGet (from_time to_time : Z)
| ESleep (seconds : Z).

Record Gateway (G : Type) := {
  market_orderbook_get : string -> Z -> G -> Response Orderbook * G;
  market_search_by_figi_get : string -> G -> Response MarketInstrument * G;
  orders_get : G -> Response (list Order) * G;
  orders_cancel_post : string -> G -> Response unit * G;
  orders_limit_order_post :
    string -> LimitOrderRequest -> G -> Response unit * G;
  operations_get : Z -> Z -> G -> Response (list Operation) * G;
  time_sleep : Z -> G -> G;
  datetime_now : G -> Z
}.
Arguments market_orderbook_get {G} _ _ _ _.
Arguments market_search_by_figi_get {G} _ _ _.
Arguments orders_get {G} _ _.
Arguments orders_cancel_post {G} _ _ _.
Arguments orders_limit_order_post {G} _ _ _ _.
Arguments operations_get {G} _ _ _ _.
Arguments time_sleep {G} _ _ _.
Arguments datetime_now {G} _ _.

(** ** The monad: gateway state, trace of calls, exceptions *)

Inductive Result (A : Type) :=
| Ret (a : A)
| Raise (e : exn)
| OutOfFuel.
Arguments Ret {A} _.
Arguments Raise {A} _.
Arguments OutOfFuel {A}.

Definition M (G A : Type) : Type := G -> Result A * G * list event.

Definition ret {G A} (a : A) : M G A := fun g => (Ret a, g, []).

Definition raise {G A} (e : exn) : M G A := fun g => (Raise e, g, []).

Definition bind {G A B} (m : M G A) (f : A -> M G B) : M G B :=
  fun g =>
    match m g with
    | (Ret a, g1, t1) =>
        match f a g1 with
        | (r, g2, t2) => (r, g2, t1 ++ t2)
        end
    | (Raise e, g1, t1) => (Raise e, g1, t1)
    | (OutOfFuel, g1, t1) => (OutOfFuel, g1, t1)
    end.

(** try: m  except Exception as e: h e *)
Definition try_except {G A} (m : M G A) (h : exn -> M G A) : M G A :=
  fun g =>
    match m g with
    | (Raise e, g1, t1) =>
        match h e g1 with
        | (r, g2, t2) => (r, g2, t1 ++ t2)
        end
    | other => other
    end.

Definition out_of_fuel {G A} : M G A := fun g => (OutOfFuel, g, []).

(** An outbound call: the gateway answers and moves on, the call is logged. *)
Definition call {G A} (ev : event) (f : G -> A * G) : M G A :=
  fun g => let (a, g1) := f g in (Ret a, g1, [ev]).

(** Reading the gateway (the clock) without a call to the brokerage. *)
Definition read {G A} (f : G -> A) : M G A := fun g => (Ret (f g), g, []).

Declare Scope monad_scope.
Delimit Scope monad_scope with monad.
Notation "x <- m ;; k" := (bind m (fun x => k))
  (at level 61, m at next level, right associativity) : monad_scope.
Notation "m ;; k" := (bind m (fun _ => k))
  (at level 61, right associativity) : monad_scope.
Open Scope monad_scope.

(** for x in xs: body x *)
Fixpoint for_each {G A} (xs : list A) (body : A -> M G unit) : M G unit :=
  match xs with
  | [] => ret tt
  | x :: rest => body x ;; for_each rest body
  end.

Definition result_of {A G} (o : Result A * G * list event) : Result A :=
  fst (fst o).
Definition state_of {A G} (o : Result A * G * list event) : G :=
  snd (fst o).
Definition trace_of {A G} (o : Result A * G * list event) : list event :=
  snd o.

(** The outcome [o], with the calls [t] made before it. *)
Definition prepend {A G} (t : list event) (o : Result A * G * list event)
  : Result A * G * list event :=
  (result_of o, state_of o, t ++ trace_of o).

(** Arithmetic that can raise. *)
Definition as_float {G} (x : option float) : M G float :=
  match x with
  | Some v => ret v
  | None => raise TypeError
  end.

Definition fdiv {G} (x y : float) : M G float :=
  if feq y 0 then raise ZeroDivisionError else ret (x / y).

(** xs[0] *)
Definition index0 {G A} (xs : list A) : M G A :=
  match xs with
  | x :: _ => ret x
  | [] => raise IndexError
  end.

(** ** class CompanyData *)

Record CompanyData := {
  figi : string;
  ticker : string;
  ask : OrderResponse;
  bid : OrderResponse;
  currency : Currency;
  last_price : option float;
  minPriceIncrement : float;
  close_price : option float
}.

Definition get_bid (self : CompanyData) : float := price (bid self).

Definition get_ask (self : CompanyData) : float := price (ask self).

Definition is_changed (self : CompanyData) : bool :=
  match last_price self, close_price self with
  | Some lp, Some cp => negb (feq (round_float lp) (round_float cp))
  | _, _ => false
  end.

(** The two [append] calls of [get_price]: a side of the book that came back
    empty receives its sentinel entry. *)
Definition fill_empty_sides (stock_info : Orderbook) : Orderbook :=
  let asks' :=
    if (Z.of_nat (List.length (asks stock_info)) =? 0)%Z
    then asks stock_info ++ [ {| price := 0; quantity := 0 |} ]
    else asks stock_info in
  let bids' :=
    if (Z.of_nat (List.length (bids stock_info)) =? 0)%Z
    then bids stock_info ++ [ {| price := 10000; quantity := 0 |} ]
    else bids stock_info in
  {| asks := asks';
     bids := bids';
     ob_last_price := ob_last_price stock_info;
     ob_close_price := ob_close_price stock_info;
     ob_min_price_increment := ob_min_price_increment stock_info |}.

Section Program.

Context {G : Type} (gw : Gateway G).

(** [constants.USD_TO_RUB]; the module [constants] is not part of the
    sources, its value is a parameter. *)
Variable USD_TO_RUB : float.

Definition get_delta (self : CompanyData) : M G float :=
  cp <- as_float (close_price self) ;;
  ret (cp - get_bid self).

Definition get_income (self : CompanyData) : M G float :=
  delta <- get_delta self ;;
  lp <- as_float (last_price self) ;;
  q <- fdiv delta lp ;;
  ret (round_float q).

(** [company.attr] where [company] may be [None]. *)
Definition deref (company : option CompanyData) : M G CompanyData :=
  match company with
  | Some c => ret c
  | None => raise AttributeError
  end.

(** ** Quotes *)

Definition get_price (figi : string) : M G Orderbook :=
  info <- call (EOrderbookGet figi 1) (market_orderbook_get gw figi 1) ;;
  if (status_code info =? 200)%Z then
    let stock_info := payload info in
    ret (fill_empty_sides stock_info)
  else raise (Exception_int (status_code info)).

Definition get_info_by_figi (figi : string) : M G (option CompanyData) :=
  response <-
    call (ESearchByFigi figi) (market_search_by_figi_get gw figi) ;;
  if (status_code response =? 200)%Z then
    let cmp_info := payload response in
    prices <- get_price figi ;;
    a <- index0 (asks prices) ;;
    b <- index0 (bids prices) ;;
    ret (Some {| figi := figi;
                 ticker := mi_ticker cmp_info;
                 ask := a;
                 bid := b;
                 currency := mi_currency cmp_info;
                 last_price := ob_last_price prices;
                 minPriceIncrement := mi_min_price_increment cmp_info;
                 close_price := ob_close_price prices |})
  else ret None.

(** ** Rate-limit guard

    [create_company] calls itself after a throttled attempt; [fuel] bounds the
    number of attempts the model follows. *)
Fixpoint create_company (fuel : nat) (bond : MarketInstrument)
  : M G (option CompanyData) :=
  match fuel with
  | O => out_of_fuel
  | S fuel' =>
      try_except
        (stock_info <- get_price (mi_figi bond) ;;
         a <- index0 (asks stock_info) ;;
         b <- index0 (bids stock_info) ;;
         ret (Some {| figi := mi_figi bond;
                      ticker := mi_ticker bond;
                      ask := a;
                      bid := b;
                      currency := mi_currency bond;
                      last_price := ob_last_price stock_info;
                      minPriceIncrement :=
                        ob_min_price_increment stock_info;
                      close_price := ob_close_price stock_info |}))
        (fun e =>
           if String.eqb (str_exn e) "429" then
             call (ESleep 60) (fun g => (tt, time_sleep gw 60 g)) ;;
             create_company fuel' bond
           else ret None)
  end.

(** The same function under the interpreter's recursion limit.  Every retry
    is a call of [create_company] from inside the handler of the call before
    it, so the attempts are nested calls.  [limit] is the number of nested
    calls whose [try] block the interpreter still has room for (its recursion
    limit is 1000 frames unless the program raises it, and src/main.py does
    not).  In the call that has no room left, the frames of [get_price] and
    of the client under it do not fit: the [try] block raises
    [RecursionError], which [except Exception] catches like any other
    exception; its text is not "429", so [None] is returned, and every call
    above returns it in turn.  Whether that last request still reaches the
    service is decided inside the client; no request is recorded for it. *)
Fixpoint create_company_limited (limit : nat) (bond : MarketInstrument)
  : M G (option CompanyData) :=
  match limit with
  | O => ret None
  | S limit' =>
      try_except
        (stock_info <- get_price (mi_figi bond) ;;
         a <- index0 (asks stock_info) ;;
         b <- index0 (bids stock_info) ;;
         ret (Some {| figi := mi_figi bond;
                      ticker := mi_ticker bond;
                      ask := a;
                      bid := b;
                      currency := mi_currency bond;
                      last_price := ob_last_price stock_info;
                      minPriceIncrement :=
                        ob_min_price_increment stock_info;
                      close_price := ob_close_price stock_info |}))
        (fun e =>
           if String.eqb (str_exn e) "429" then
             call (ESleep 60) (fun g => (tt, time_sleep gw 60 g)) ;;
             create_company_limited limit' bond
           else ret None)
  end.

(** ** Candidate screener *)

Definition is_valid_company (company : CompanyData) (changed : bool)
    (min_income max_price : float) : M G bool :=
  let gates (value : option float) : M G bool :=
    v <- as_float value ;;
    if fgt v max_price then ret false
    else
      income <- get_income company ;;
      if flt income min_income then ret false
      else if changed && negb (is_changed company) then ret false
      else ret true in
  match currency company with
  | rub =>
      lp <- as_float (last_price company) ;;
      value <- fdiv lp USD_TO_RUB ;;
      gates (Some value)
  | usd => gates (last_price company)
  | other_currency _ => ret false
  end.

(** ** Order pricer and submission *)

Definition create_order (company : CompanyData) (price : float)
    (operation_type : OperationType) (lots : Z) : M G bool :=
  let body := {| lo_price := py_round price 2;
                 lo_lots := lots;
                 lo_operation := operation_type |} in
  _ <- get_income company ;;
  response <-
    call (ELimitOrderPost (figi company) body)
         (orders_limit_order_post gw (figi company) body) ;;
  if (status_code response =? 200)%Z then ret true else ret false.

Definition create_limit_order (company : CompanyData)
    (operation_type : OperationType) (lots : Z) : M G bool :=
  let new_price :=
    if OperationType_eqb operation_type buy
    then get_bid company + minPriceIncrement company
    else get_ask company - minPriceIncrement company in
  _ <- get_income company ;;
  create_order company new_price operation_type lots.

(** ** Reconciliation loop *)

(** The body of the [for order in orders_list] loop. *)
Definition update_active_orders_body (min_ratio : float) (order : Order)
  : M G unit :=
  company <- get_info_by_figi (order_figi order) ;;
  drift_buy <-
    (if OperationType_eqb (order_operation order) buy then
       c <- deref company ;;
       ret (negb (float_eq (get_bid c) (order_price order)))
     else ret false) ;;
  drift <-
    (if drift_buy then ret true
     else if OperationType_eqb (order_operation order) sell then
       c <- deref company ;;
       ret (negb (float_eq (get_ask c) (order_price order)))
     else ret false) ;;
  if drift then
    c <- deref company ;;
    _ <- get_income c ;;
    _ <- call (ECancel (order_id order))
              (orders_cancel_post gw (order_id order)) ;;
    _ <- get_income c ;;
    income <- get_income c ;;
    replace <-
      (if fgt income min_ratio
          && OperationType_eqb (order_operation order) buy
       then ret true
       else
         income' <- get_income c ;;
         ret (fgt (Qabs income') min_ratio
              && OperationType_eqb (order_operation order) sell)) ;;
    if replace then
      _ <- create_limit_order c (order_operation order) 1 ;;
      ret tt
    else ret tt
  else ret tt.

Definition update_active_orders (min_ratio : float) : M G unit :=
  orders_response <- call EOrdersGet (orders_get gw) ;;
  if (status_code orders_response =? 200)%Z then
    for_each (payload orders_response) (update_active_orders_body min_ratio)
  else raise (Exception_str "can't update orders").

(** ** Settlement responder *)

(** The body of the [for operation in operation_list] loop. *)
Definition check_done_orders_body (operation : Operation) : M G unit :=
  if OperationStatus_eqb (op_status operation) done then
    cmp_info <- get_info_by_figi (op_figi operation) ;;
    let operation_type :=
      if OperationType_eqb (operation_type operation) buy
      then sell else buy in
    c <- deref cmp_info ;;
    _ <- create_limit_order c operation_type 1 ;;
    ret tt
  else ret tt.

Definition check_done_orders (from_time : Z) : M G unit :=
  to_time <- read (datetime_now gw) ;;
  response <-
    call (EOperationsGet from_time to_time)
         (operations_get gw from_time to_time) ;;
  if (status_code response =? 200)%Z then
    for_each (payload response) check_done_orders_body
  else raise (Exception_str "Can't get operations").

End Program.

(** ** What the program computes, as pure functions of a valuation

    The methods of [CompanyData] touch neither the gateway nor the trace;
    these are their values, used to state what the effectful code does. *)

Definition income_of (c : CompanyData) : Result float :=
  match close_price c, last_price c with
  | Some cp, Some lp =>
      if feq lp 0 then Raise ZeroDivisionError
      else Ret (round_float ((cp - get_bid c) / lp))
  | _, _ => Raise TypeError
  end.

(** The price an open order is compared with (lines 214-215). *)
Definition best_price (c : CompanyData) (op : OperationType) : float :=
  match op with
  | buy => get_bid c
  | sell => get_ask c
  end.

Definition drifted (c : CompanyData) (order : Order) : bool :=
  negb (float_eq (best_price c (order_operation order)) (order_price order)).

(** The price of a new order (lines 183-186). *)
Definition limit_price (c : CompanyData) (op : OperationType) : float :=
  match op with
  | buy => get_bid c + minPriceIncrement c
  | sell => get_ask c - minPriceIncrement c
  end.

Definition limit_order (c : CompanyData) (op : OperationType) (lots : Z)
  : LimitOrderRequest :=
  {| lo_price := py_round (limit_price c op) 2;
     lo_lots := lots;
     lo_operation := op |}.

(** The condition of lines 219-220 on the income that [get_income] returns. *)
Definition threshold_cleared (income min_ratio : float) (op : OperationType)
  : bool :=
  match op with
  | buy => fgt income min_ratio
  | sell => fgt (Qabs income) min_ratio
  end.

Definition first_ask (book : Orderbook) : OrderResponse :=
  match asks book with
  | a :: _ => a
  | [] => {| price := 0; quantity := 0 |}
  end.

Definition first_bid (book : Orderbook) : OrderResponse :=
  match bids book with
  | b :: _ => b
  | [] => {| price := 10000; quantity := 0 |}
  end.

(** The valuation [get_info_by_figi] builds from its two responses. *)
Definition company_of_search (f : string) (cmp_info : MarketInstrument)
    (book : Orderbook) : CompanyData :=
  {| figi := f;
     ticker := mi_ticker cmp_info;
     ask := first_ask book;
     bid := first_bid book;
     currency := mi_currency cmp_info;
     last_price := ob_last_price book;
     minPriceIncrement := mi_min_price_increment cmp_info;
     close_price := ob_close_price book |}.

(** The valuation [create_company] builds from a bond and its order book. *)
Definition company_of_bond (bond : MarketInstrument) (book : Orderbook)
  : CompanyData :=
  {| figi := mi_figi bond;
     ticker := mi_ticker bond;
     ask := first_ask book;
     bid := first_bid book;
     currency := mi_currency bond;
     last_price := ob_last_price book;
     minPriceIncrement := ob_min_price_increment book;
     close_price := ob_close_price book |}.

(** Selections of a trace. *)
Definition is_action (ev : event) : bool :=
  match ev with
  | ECancel _ | ELimitOrderPost _ _ => true
  | _ => false
  end.

Definition is_post (ev : event) : bool :=
  match ev with
  | ELimitOrderPost _ _ => true
  | _ => false
  end.

Definition is_sleep (ev : event) : bool :=
  match ev with
  | ESleep _ => true
  | _ => false
  end.

Definition actions (t : list event) : list event := filter is_action t.
Definition posts (t : list event) : list event := filter is_post t.
Definition sleeps (t : list event) : list event := filter is_sleep t.

(** Every submitted order of a trace asks for one lot. *)
Definition one_lot (ev : event) : Prop :=
  match ev with
  | ELimitOrderPost _ body => lo_lots body = 1%Z
  | _ => True
  end.

(** The calls of [n] throttled attempts followed by a last attempt. *)
Fixpoint attempts (n : nat) (f : string) : list event :=
  match n with
  | O => [EOrderbookGet f 1]
  | S n' => EOrderbookGet f 1 :: ESleep 60 :: attempts n' f
  end.

(** ** Assumptions on a gateway *)

(** The quote service throttles the next [n] requests for [f]. *)
Fixpoint throttled {G} (gw : Gateway G) (f : string) (n : nat) (g : G)
  : Prop :=
  match n with
  | O => True
  | S n' =>
      status_code (fst (market_orderbook_get gw f 1 g)) = 429%Z /\
      throttled gw f n'
        (time_sleep gw 60 (snd (market_orderbook_get gw f 1 g)))
  end.

(** The gateway after [n] requests for [f], each followed by a cooldown. *)
Fixpoint after_cooldowns {G} (gw : Gateway G) (f : string) (n : nat) (g : G)
  : G :=
  match n with
  | O => g
  | S n' =>
      after_cooldowns gw f n'
        (time_sleep gw 60 (snd (market_orderbook_get gw f 1 g)))
  end.

(** ** Brokerage scenarios

    The brokerage itself is outside the repository.  Statements that need a
    concrete one (two passes in a row, a throttled call, the worked examples)
    use the two below. *)

Module IdealBroker.

(** A brokerage with fixed quotes that honours every request: a cancel
    removes the order, a limit order is added to the open orders. *)
Record Broker := {
  open_orders : list Order;
  next_id : nat;
  clock : Z
}.

Section Quotes.

Variable search : string -> Response MarketInstrument.
Variable book : string -> Response Orderbook.
Variable trades : list Operation.

Definition remove_order (id : string) (b : Broker) : Broker :=
  {| open_orders :=
       filter (fun o => negb (String.eqb (order_id o) id)) (open_orders b);
     next_id := next_id b;
     clock := clock b |}.

Definition add_order (f : string) (body : LimitOrderRequest) (b : Broker)
  : Broker :=
  {| open_orders :=
       open_orders b ++
       [ {| order_id :=
              String.append "new-"
                (NilZero.string_of_uint (Nat.to_uint (next_id b)));
            order_figi := f;
            order_operation := lo_operation body;
            order_price := lo_price body;
            requested_lots := lo_lots body |} ];
     next_id := S (next_id b);
     clock := clock b |}.

Definition ok {A} (a : A) : Response A := {| status_code := 200; payload := a |}.

Definition gateway : Gateway Broker :=
  {| market_orderbook_get := fun f _ b => (book f, b);
     market_search_by_figi_get := fun f b => (search f, b);
     orders_get := fun b => (ok (open_orders b), b);
     orders_cancel_post := fun id b => (ok tt, remove_order id b);
     orders_limit_order_post := fun f body b => (ok tt, add_order f body b);
     operations_get := fun _ _ b => (ok trades, b);
     time_sleep := fun n b =>
       {| open_orders := open_orders b;
          next_id := next_id b;
          clock := (clock b + n)%Z |};
     datetime_now := clock |}.

End Quotes.

End IdealBroker.

Module Throttling.

(** A quote service that answers its first [k] requests with status 429 and
    every later one with the given book; its state counts the requests. *)
Definition empty_book : Orderbook :=
  {| asks := []; bids := [];
     ob_last_price := None; ob_close_price := None;
     ob_min_price_increment := 0 |}.

Definition service (k : nat) (book : Orderbook) : Gateway nat :=
  {| market_orderbook_get := fun _ _ n =>
       (if Nat.ltb n k
        then {| status_code := 429; payload := empty_book |}
        else {| status_code := 200; payload := book |}, S n);
     market_search_by_figi_get := fun f n =>
       ({| status_code := 404;
           payload := {| mi_figi := f; mi_ticker := "";
                         mi_currency := usd;
                         mi_min_price_increment := 0 |} |}, n);
     orders_get := fun n => ({| status_code := 200; payload := [] |}, n);
     orders_cancel_post := fun _ n =>
       ({| status_code := 200; payload := tt |}, n);
     orders_limit_order_post := fun _ _ n =>
       ({| status_code := 200; payload := tt |}, n);
     operations_get := fun _ _ n =>
       ({| status_code := 200; payload := [] |}, n);
     time_sleep := fun _ n => n;
     datetime_now := fun _ => 0%Z |}.

End Throttling.

(** An open order at rest: its valuation is built, without moving the
    gateway, and the order's price is the best price of its side. *)
Definition settled {G} (gw : Gateway G) (o : Order) : Prop :=
  exists c t,
    (forall g, get_info_by_figi gw (order_figi o) g = (Ret (Some c), g, t)) /\
    drifted c o = false.

(** ** Worked inputs *)

Module Example.

Definition instrument (f : string) (tick : float) : MarketInstrument :=
  {| mi_figi := f; mi_ticker := f; mi_currency := usd;
     mi_min_price_increment := tick |}.

Definition quote (bid_p ask_p last_p close_p tick : float) : Orderbook :=
  {| asks := [ {| price := ask_p; quantity := 3 |} ];
     bids := [ {| price := bid_p; quantity := 5 |} ];
     ob_last_price := Some last_p;
     ob_close_price := Some close_p;
     ob_min_price_increment := tick |}.

(** AAA: bid 100, ask 101, last 102, close 110, tick 0.5.
    BBB: bid 100, ask 101, last 100, close 101.04, tick 0.5.
    CCC: bid 100, ask 101, last 100, close 100.96, tick 0.5.
    DOWN: the quote service answers 500.
    ZERO: last price 0. *)
Definition search (f : string) : Response MarketInstrument :=
  {| status_code := 200; payload := instrument f (1 # 2) |}.

Definition book (f : string) : Response Orderbook :=
  if String.eqb f "AAA" then
    {| status_code := 200; payload := quote 100 101 102 110 (1 # 2) |}
  else if String.eqb f "BBB" then
    {| status_code := 200;
       payload := quote 100 101 100 (10104 # 100) (1 # 2) |}
  else if String.eqb f "CCC" then
    {| status_code := 200;
       payload := quote 100 101 100 (10096 # 100) (1 # 2) |}
  else if String.eqb f "ZERO" then
    {| status_code := 200; payload := quote 100 101 0 110 (1 # 2) |}
  else {| status_code := 500; payload := Throttling.empty_book |}.

Definition gw (trades : list Operation) : Gateway IdealBroker.Broker :=
  IdealBroker.gateway search book trades.

Definition broker (os : list Order) : IdealBroker.Broker :=
  {| IdealBroker.open_orders := os;
     IdealBroker.next_id := 0;
     IdealBroker.clock := 0 |}.

Definition order (id f : string) (op : OperationType) (p : float) (lots : Z)
  : Order :=
  {| order_id := id; order_figi := f; order_operation := op;
     order_price := p; requested_lots := lots |}.

Definition company (f : string) : CompanyData :=
  company_of_search f (payload (search f)) (payload (book f)).

Definition trade (f : string) (st : OperationStatus) (op : OperationType)
  : Operation :=
  {| op_figi := f; op_status := st; operation_type := op; op_quantity := 7 |}.

End Example.

(** ** The rest of the program: ranking, scanning, placement, the loop *)

Definition is_cancel (ev : event) : bool :=
  match ev with
  | ECancel _ => true
  | _ => false
  end.

Definition cancels (t : list event) : list event := filter is_cancel t.

(** Only quote requests and cooldown sleeps. *)
Definition quote_or_sleep (ev : event) : Prop :=
  match ev with
  | EOrderbookGet _ _ | ESleep _ => True
  | _ => False
  end.

(** A submitted order that buys one lot. *)
Definition buys_one_lot (ev : event) : Prop :=
  match ev with
  | ELimitOrderPost _ body =>
      lo_operation body = buy /\ lo_lots body = 1%Z
  | _ => True
  end.

(** A call whose answer is read but which has no event of its own: the
    list of instruments and the console. *)
Definition consult {G A} (f : G -> A * G) : M G A :=
  fun g => let (a, g1) := f g in (Ret a, g1, []).

Section Placement.

Context {G : Type} (gw : Gateway G).

(** [constants.USD_TO_RUB], [market.market_stocks_get()] and [input()]. *)
Variable USD_TO_RUB : float.
Variable market_stocks_get : G -> Response (list MarketInstrument) * G.
Variable input : G -> string * G.

(** CompanyData.__lt__ *)
Definition company_lt (self other : CompanyData) : M G bool :=
  d1 <- get_delta self ;;
  lp1 <- as_float (last_price self) ;;
  q1 <- fdiv d1 lp1 ;;
  d2 <- get_delta other ;;
  lp2 <- as_float (last_price other) ;;
  q2 <- fdiv d2 lp2 ;;
  if flt q1 q2 then ret true else ret false.

(** CompanyData.__str__: the arguments of the format call, in order; the
    text itself is not modelled. *)
Definition company_str (self : CompanyData) : M G unit :=
  _ <- get_delta self ;;
  _ <- as_float (last_price self) ;;
  _ <- get_income self ;;
  ret tt.

(** The [for bond in all_stocks] loop of [parse_stocks]; [fuel] is the fuel
    of each [create_company]. *)
Fixpoint parse_stocks_loop (fuel : nat) (number_to_parse : Z)
    (all_stocks : list MarketInstrument) (res_companies : list CompanyData)
  : M G (list CompanyData) :=
  match all_stocks with
  | [] => ret res_companies
  | bond :: rest =>
      if (Z.of_nat (List.length res_companies) >=? number_to_parse)%Z
      then ret res_companies
      else
        tmp <- create_company gw fuel bond ;;
        match tmp with
        | Some c =>
            parse_stocks_loop fuel number_to_parse rest (res_companies ++ [c])
        | None => parse_stocks_loop fuel number_to_parse rest res_companies
        end
  end.

Definition parse_stocks (fuel : nat) (number_to_parse : Z)
  : M G (option (list CompanyData)) :=
  response <- consult market_stocks_get ;;
  if negb (status_code response =? 200)%Z then ret None
  else
    let all_stocks := payload response in
    let number_to_parse :=
      if (number_to_parse =? -1)%Z
      then Z.of_nat (List.length all_stocks)
      else number_to_parse in
    res_companies <- parse_stocks_loop fuel number_to_parse all_stocks [] ;;
    ret (Some res_companies).

(** ** Placement flow *)

Fixpoint buy_companies (companies_list : list CompanyData) (changed : bool)
    (min_ratio max_price : float) : M G unit :=
  match companies_list with
  | [] => ret tt
  | company :: rest =>
      valid <- is_valid_company USD_TO_RUB company changed min_ratio
                 max_price ;;
      if valid then
        _ <- company_str company ;;
        res <- consult input ;;
        if String.eqb res "Y" || String.eqb res "y" then
          response <- create_limit_order gw company buy 1 ;;
          if response
          then buy_companies rest changed min_ratio max_price
          else ret tt
        else if String.eqb res "exit" then ret tt
        else buy_companies rest changed min_ratio max_price
      else buy_companies rest changed min_ratio max_price
  end.

(** ** The [--update] loop of the main program

    [while True]: a settlement pass from the last checkpoint, a
    reconciliation pass, a new checkpoint read from the clock, a sleep of
    20; [fuel] bounds the number of rounds the model follows. *)
Fixpoint update_loop (fuel : nat) (min_ratio : float) (last_update : Z)
  : M G unit :=
  match fuel with
  | O => out_of_fuel
  | S fuel' =>
      check_done_orders gw last_update ;;
      update_active_orders gw min_ratio ;;
      last_update' <- read (datetime_now gw) ;;
      call (ESleep 20) (fun g => (tt, time_sleep gw 20 g)) ;;
      update_loop fuel' min_ratio last_update'
  end.

End Placement.

(** The ratio that [__lt__] compares: [get_delta() / last_price], not
    rounded. *)
Definition ratio_of (c : CompanyData) : Result float :=
  match close_price c, last_price c with
  | Some cp, Some lp =>
      if feq lp 0 then Raise ZeroDivisionError
      else Ret ((cp - get_bid c) / lp)
  | _, _ => Raise TypeError
  end.

(** A console that answers every question with the same line. *)
Definition console (line : string) {G} (g : G) : string * G := (line, g).

(** * The same code over binary64 floats

    Where a decision or a submitted price depends on how Python computes
    with floats, the code is embedded a second time over IEEE 754 binary64
    numbers (the kernel's primitive floats): [+], [-], [/], [<], [==] and
    [abs] are the machine operations, a decimal literal denotes the nearest
    binary64 value, and [round(x, n)] is what CPython computes: the exact
    value of [x] rounded half-to-even at the n-th decimal, then the binary64
    value nearest to that decimal. *)

Module B64.

Import PrimFloat.
#[local] Set Warnings "-inexact-float".

(** ** Floats *)

Definition feq (x y : float) : bool := PrimFloat.eqb x y.
Definition flt (x y : float) : bool := PrimFloat.ltb x y.
Definition fgt (x y : float) : bool := PrimFloat.ltb y x.

(** The exact value of a finite float (0 for the others). *)
Definition to_Q (x : float) : Q :=
  match FloatOps.Prim2SF x with
  | SpecFloat.S754_finite s m e =>
      let v :=
        (inject_Z (Zpos m)
         * (if (0 <=? e)%Z then inject_Z (2 ^ e)
            else / inject_Z (2 ^ (- e))))%Q in
      if s then (- v)%Q else v
  | _ => 0%Q
  end.

(** The float nearest to [k / 10^n]; a zero takes the sign asked for. *)
Definition nearest_decimal (negative : bool) (k : Z) (n : nat) : float :=
  let unit := SpecFloat.S754_finite false (Z.to_pos (10 ^ Z.of_nat n)) 0 in
  match k with
  | Z0 => if negative then neg_zero else zero
  | Zpos p => FloatOps.SF2Prim (SpecFloat.SFdiv FloatOps.prec FloatOps.emax (SpecFloat.S754_finite false p 0) unit)
  | Zneg p => FloatOps.SF2Prim (SpecFloat.SFdiv FloatOps.prec FloatOps.emax (SpecFloat.S754_finite true p 0) unit)
  end.

(** Python's [round(x, ndigits)] on a float: zeros, infinities and NaN round
    to themselves. *)
Definition py_round (x : float) (ndigits : nat) : float :=
  match FloatOps.Prim2SF x with
  | SpecFloat.S754_finite s _ _ =>
      nearest_decimal s (round_half_even (to_Q x * pow10 ndigits)) ndigits
  | _ => x
  end.

(** def round_float(x): return round(x, 3) *)
Definition round_float (x : float) : float := py_round x 3.

(** def float_eq(x, y): return round(x, 3) == round(y, 3) *)
Definition float_eq (x y : float) : bool := feq (py_round x 3) (py_round y 3).

(** Finite and not zero: the floats that [round] does not return as they
    are. *)
Definition is_ordinary (x : float) : bool :=
  match FloatOps.Prim2SF x with
  | SpecFloat.S754_finite _ _ _ => true
  | _ => false
  end.

(** ** Schemas *)

Record OrderResponse := { price : float; quantity : Z }.

Record Orderbook := {
  asks : list OrderResponse;
  bids : list OrderResponse;
  ob_last_price : option float;
  ob_close_price : option float;
  ob_min_price_increment : float
}.

Record MarketInstrument := {
  mi_figi : string;
  mi_ticker : string;
  mi_currency : Currency;
  mi_min_price_increment : float
}.

Record LimitOrderRequest := {
  lo_price : float;
  lo_lots : Z;
  lo_operation : OperationType
}.

Record Order := {
  order_id : string;
  order_figi : string;
  order_operation : OperationType;
  order_price : float;
  requested_lots : Z
}.

(** The operation type of a history entry.  The client library gives it more
    members than [Buy] and [Sell] (commissions, dividends, ...); the library
    is not part of the sources, [other_operation] stands for those members.
    [==] against [OperationType.buy] compares the names. *)
Inductive HistoryOperationType :=
| history_buy
| history_sell
| other_operation (name : string).

Definition is_history_buy (t : HistoryOperationType) : bool :=
  match t with
  | history_buy => true
  | _ => false
  end.

Record Operation := {
  op_figi : string;
  op_status : OperationStatus;
  operation_type : HistoryOperationType;
  op_quantity : Z
}.

(** ** Outbound calls *)

Inductive event :=
| EOrderbookGet (figi : string) (depth : Z)
| ESearchByFigi (figi : string)
| EOrdersGet
| ECancel (id : string)
| ELimitOrderPost (figi : string) (body : LimitOrderRequest)
| EOperationsGet (from_time to_time : Z).

Record Gateway (G : Type) := {
  market_orderbook_get : string -> Z -> G -> Response Orderbook * G;
  market_search_by_figi_get : string -> G -> Response MarketInstrument * G;
  orders_get : G -> Response (list Order) * G;
  orders_cancel_post : string -> G -> Response unit * G;
  orders_limit_order_post :
    string -> LimitOrderRequest -> G -> Response unit * G;
  operations_get : Z -> Z -> G -> Response (list Operation) * G;
  datetime_now : G -> Z
}.
Arguments market_orderbook_get {G} _ _ _ _.
Arguments market_search_by_figi_get {G} _ _ _.
Arguments orders_get {G} _ _.
Arguments orders_cancel_post {G} _ _ _.
Arguments orders_limit_order_post {G} _ _ _ _.
Arguments operations_get {G} _ _ _ _.
Arguments datetime_now {G} _ _.

(** ** The monad *)

Definition M (G A : Type) : Type := G -> Result A * G * list event.

Definition ret {G A} (a : A) : M G A := fun g => (Ret a, g, []).

Definition raise {G A} (e : exn) : M G A := fun g => (Raise e, g, []).

Definition bind {G A B} (m : M G A) (f : A -> M G B) : M G B :=
  fun g =>
    match m g with
    | (Ret a, g1, t1) =>
        match f a g1 with
        | (r, g2, t2) => (r, g2, t1 ++ t2)
        end
    | (Raise e, g1, t1) => (Raise e, g1, t1)
    | (OutOfFuel, g1, t1) => (OutOfFuel, g1, t1)
    end.

Definition call {G A} (ev : event) (f : G -> A * G) : M G A :=
  fun g => let (a, g1) := f g in (Ret a, g1, [ev]).

Definition read {G A} (f : G -> A) : M G A := fun g => (Ret (f g), g, []).

Declare Scope b64_scope.
Notation "x <- m ;; k" := (bind m (fun x => k))
  (at level 61, m at next level, right associativity) : b64_scope.
Notation "m ;; k" := (bind m (fun _ => k))
  (at level 61, right associativity) : b64_scope.
Local Open Scope b64_scope.

Fixpoint for_each {G A} (xs : list A) (body : A -> M G unit) : M G unit :=
  match xs with
  | [] => ret tt
  | x :: rest => body x ;; for_each rest body
  end.

Definition result_of {A G} (o : Result A * G * list event) : Result A :=
  fst (fst o).
Definition state_of {A G} (o : Result A * G * list event) : G :=
  snd (fst o).
Definition trace_of {A G} (o : Result A * G * list event) : list event :=
  snd o.

Definition prepend {A G} (t : list event) (o : Result A * G * list event)
  : Result A * G * list event :=
  (result_of o, state_of o, t ++ trace_of o).

Definition as_float {G} (x : option float) : M G float :=
  match x with
  | Some v => ret v
  | None => raise TypeError
  end.

(** [x / y]: a zero divisor, of either sign, raises. *)
Definition fdiv {G} (x y : float) : M G float :=
  if feq y zero then raise ZeroDivisionError else ret (PrimFloat.div x y).

Definition index0 {G A} (xs : list A) : M G A :=
  match xs with
  | x :: _ => ret x
  | [] => raise IndexError
  end.

(** ** class CompanyData *)

Record CompanyData := {
  figi : string;
  ticker : string;
  ask : OrderResponse;
  bid : OrderResponse;
  currency : Currency;
  last_price : option float;
  minPriceIncrement : float;
  close_price : option float
}.

Definition get_bid (self : CompanyData) : float := price (bid self).

Definition get_ask (self : CompanyData) : float := price (ask self).

Definition is_changed (self : CompanyData) : bool :=
  match last_price self, close_price self with
  | Some lp, Some cp => negb (feq (round_float lp) (round_float cp))
  | _, _ => false
  end.

Definition fill_empty_sides (stock_info : Orderbook) : Orderbook :=
  let asks' :=
    if (Z.of_nat (List.length (asks stock_info)) =? 0)%Z
    then asks stock_info ++ [ {| price := 0; quantity := 0 |} ]
    else asks stock_info in
  let bids' :=
    if (Z.of_nat (List.length (bids stock_info)) =? 0)%Z
    then bids stock_info ++ [ {| price := 10000; quantity := 0 |} ]
    else bids stock_info in
  {| asks := asks';
     bids := bids';
     ob_last_price := ob_last_price stock_info;
     ob_close_price := ob_close_price stock_info;
     ob_min_price_increment := ob_min_price_increment stock_info |}.

Section Program.

Context {G : Type} (gw : Gateway G).

Variable USD_TO_RUB : float.

Definition get_delta (self : CompanyData) : M G float :=
  cp <- as_float (close_price self) ;;
  ret (PrimFloat.sub cp (get_bid self)).

Definition get_income (self : CompanyData) : M G float :=
  delta <- get_delta self ;;
  lp <- as_float (last_price self) ;;
  q <- fdiv delta lp ;;
  ret (round_float q).

Definition deref (company : option CompanyData) : M G CompanyData :=
  match company with
  | Some c => ret c
  | None => raise AttributeError
  end.

Definition get_price (figi : string) : M G Orderbook :=
  info <- call (EOrderbookGet figi 1) (market_orderbook_get gw figi 1) ;;
  if (status_code info =? 200)%Z then
    let stock_info := payload info in
    ret (fill_empty_sides stock_info)
  else raise (Exception_int (status_code info)).

Definition get_info_by_figi (figi : string) : M G (option CompanyData) :=
  response <-
    call (ESearchByFigi figi) (market_search_by_figi_get gw figi) ;;
  if (status_code response =? 200)%Z then
    let cmp_info := payload response in
    prices <- get_price figi ;;
    a <- index0 (asks prices) ;;
    b <- index0 (bids prices) ;;
    ret (Some {| figi := figi;
                 ticker := mi_ticker cmp_info;
                 ask := a;
                 bid := b;
                 currency := mi_currency cmp_info;
                 last_price := ob_last_price prices;
                 minPriceIncrement := mi_min_price_increment cmp_info;
                 close_price := ob_close_price prices |})
  else ret None.

Definition is_valid_company (company : CompanyData) (changed : bool)
    (min_income max_price : float) : M G bool :=
  let gates (value : option float) : M G bool :=
    v <- as_float value ;;
    if fgt v max_price then ret false
    else
      income <- get_income company ;;
      if flt income min_income then ret false
      else if changed && negb (is_changed company) then ret false
      else ret true in
  match currency company with
  | rub =>
      lp <- as_float (last_price company) ;;
      value <- fdiv lp USD_TO_RUB ;;
      gates (Some value)
  | usd => gates (last_price company)
  | other_currency _ => ret false
  end.

Definition create_order (company : CompanyData) (price : float)
    (operation_type : OperationType) (lots : Z) : M G bool :=
  let body := {| lo_price := py_round price 2;
                 lo_lots := lots;
                 lo_operation := operation_type |} in
  _ <- get_income company ;;
  response <-
    call (ELimitOrderPost (figi company) body)
         (orders_limit_order_post gw (figi company) body) ;;
  if (status_code response =? 200)%Z then ret true else ret false.

Definition create_limit_order (company : CompanyData)
    (operation_type : OperationType) (lots : Z) : M G bool :=
  let new_price :=
    if OperationType_eqb operation_type buy
    then PrimFloat.add (get_bid company) (minPriceIncrement company)
    else PrimFloat.sub (get_ask company) (minPriceIncrement company) in
  _ <- get_income company ;;
  create_order company new_price operation_type lots.

(** The body of the [for order in orders_list] loop. *)
Definition update_active_orders_body (min_ratio : float) (order : Order)
  : M G unit :=
  company <- get_info_by_figi (order_figi order) ;;
  drift_buy <-
    (if OperationType_eqb (order_operation order) buy then
       c <- deref company ;;
       ret (negb (float_eq (get_bid c) (order_price order)))
     else ret false) ;;
  drift <-
    (if drift_buy then ret true
     else if OperationType_eqb (order_operation order) sell then
       c <- deref company ;;
       ret (negb (float_eq (get_ask c) (order_price order)))
     else ret false) ;;
  if drift then
    c <- deref company ;;
    _ <- get_income c ;;
    _ <- call (ECancel (order_id order))
              (orders_cancel_post gw (order_id order)) ;;
    _ <- get_income c ;;
    income <- get_income c ;;
    replace <-
      (if fgt income min_ratio
          && OperationType_eqb (order_operation order) buy
       then ret true
       else
         income' <- get_income c ;;
         ret (fgt (PrimFloat.abs income') min_ratio
              && OperationType_eqb (order_operation order) sell)) ;;
    if replace then
      _ <- create_limit_order c (order_operation order) 1 ;;
      ret tt
    else ret tt
  else ret tt.

Definition update_active_orders (min_ratio : float) : M G unit :=
  orders_response <- call EOrdersGet (orders_get gw) ;;
  if (status_code orders_response =? 200)%Z then
    for_each (payload orders_response) (update_active_orders_body min_ratio)
  else raise (Exception_str "can't update orders").

(** The body of the [for operation in operation_list] loop. *)
Definition check_done_orders_body (operation : Operation) : M G unit :=
  if OperationStatus_eqb (op_status operation) done then
    cmp_info <- get_info_by_figi (op_figi operation) ;;
    let operation_type :=
      if is_history_buy (operation_type operation)
      then sell else buy in
    c <- deref cmp_info ;;
    _ <- create_limit_order c operation_type 1 ;;
    ret tt
  else ret tt.

Definition check_done_orders (from_time : Z) : M G unit :=
  to_time <- read (datetime_now gw) ;;
  response <-
    call (EOperationsGet from_time to_time)
         (operations_get gw from_time to_time) ;;
  if (status_code response =? 200)%Z then
    for_each (payload response) check_done_orders_body
  else raise (Exception_str "Can't get operations").

End Program.

(** ** What the program computes, as pure functions of a valuation *)

Definition income_of (c : CompanyData) : Result float :=
  match close_price c, last_price c with
  | Some cp, Some lp =>
      if feq lp zero then Raise ZeroDivisionError
      else Ret (round_float (PrimFloat.div (PrimFloat.sub cp (get_bid c)) lp))
  | _, _ => Raise TypeError
  end.

Definition best_price (c : CompanyData) (op : OperationType) : float :=
  match op with
  | buy => get_bid c
  | sell => get_ask c
  end.

Definition drifted (c : CompanyData) (order : Order) : bool :=
  negb (float_eq (best_price c (order_operation order)) (order_price order)).

(** The price of a new order before it is rounded (lines 183-186). *)
Definition limit_price (c : CompanyData) (op : OperationType) : float :=
  match op with
  | buy => PrimFloat.add (get_bid c) (minPriceIncrement c)
  | sell => PrimFloat.sub (get_ask c) (minPriceIncrement c)
  end.

Definition limit_order (c : CompanyData) (op : OperationType) (lots : Z)
  : LimitOrderRequest :=
  {| lo_price := py_round (limit_price c op) 2;
     lo_lots := lots;
     lo_operation := op |}.

Definition threshold_cleared (income min_ratio : float) (op : OperationType)
  : bool :=
  match op with
  | buy => fgt income min_ratio
  | sell => fgt (PrimFloat.abs income) min_ratio
  end.

(** The side of the order that answers a history entry (lines 270-273). *)
Definition answer_side (t : HistoryOperationType) : OperationType :=
  if is_history_buy t then sell else buy.

Definition first_ask (book : Orderbook) : OrderResponse :=
  match asks book with
  | a :: _ => a
  | [] => {| price := 0; quantity := 0 |}
  end.

Definition first_bid (book : Orderbook) : OrderResponse :=
  match bids book with
  | b :: _ => b
  | [] => {| price := 10000; quantity := 0 |}
  end.

Definition company_of_search (f : string) (cmp_info : MarketInstrument)
    (book : Orderbook) : CompanyData :=
  {| figi := f;
     ticker := mi_ticker cmp_info;
     ask := first_ask book;
     bid := first_bid book;
     currency := mi_currency cmp_info;
     last_price := ob_last_price book;
     minPriceIncrement := mi_min_price_increment cmp_info;
     close_price := ob_close_price book |}.

Definition is_action (ev : event) : bool :=
  match ev with
  | ECancel _ | ELimitOrderPost _ _ => true
  | _ => false
  end.

Definition is_post (ev : event) : bool :=
  match ev with
  | ELimitOrderPost _ _ => true
  | _ => false
  end.

Definition actions (t : list event) : list event := filter is_action t.
Definition posts (t : list event) : list event := filter is_post t.

(** ** The spec's wording of the derived economics

    Following the words of the specification (section 3), not the source:
    [income_ratio = delta / last_price], with no rounding. *)
Definition spec_income_ratio (c : CompanyData) : float :=
  match close_price c, last_price c with
  | Some cp, Some lp => PrimFloat.div (PrimFloat.sub cp (get_bid c)) lp
  | _, _ => zero
  end.

(** Section 4.5 step 4 in the spec's words. *)
Definition spec_threshold_cleared (c : CompanyData) (min_ratio : float)
    (op : OperationType) : bool :=
  match op with
  | buy => fgt (spec_income_ratio c) min_ratio
  | sell => fgt (PrimFloat.abs (spec_income_ratio c)) min_ratio
  end.

(** Section 4.2 in the spec's words: the three gates on the price normalised
    to the reference currency, the unrounded income ratio and the
    traded-today flag. *)
Definition spec_is_eligible (rate : float) (c : CompanyData) (changed : bool)
    (min_income max_price : float) : bool :=
  match last_price c, currency c with
  | Some lp, rub =>
      negb (fgt (PrimFloat.div lp rate) max_price)
      && negb (flt (spec_income_ratio c) min_income)
      && (negb changed || is_changed c)
  | Some lp, usd =>
      negb (fgt lp max_price)
      && negb (flt (spec_income_ratio c) min_income)
      && (negb changed || is_changed c)
  | _, _ => false
  end.

(** ** Assumptions on a gateway *)

Definition steady {G} (gw : Gateway G)
    (search : string -> Response MarketInstrument)
    (book : string -> Response Orderbook) : Prop :=
  forall f g,
    fst (market_search_by_figi_get gw f g) = search f /\
    fst (market_orderbook_get gw f 1 g) = book f.

Definition quoted (search : string -> Response MarketInstrument)
    (book : string -> Response Orderbook) (f : string) : CompanyData :=
  company_of_search f (payload (search f)) (payload (book f)).

Definition evaluable (search : string -> Response MarketInstrument)
    (book : string -> Response Orderbook) (f : string) : Prop :=
  status_code (search f) = 200%Z /\
  status_code (book f) = 200%Z /\
  exists inc, income_of (quoted search book f) = Ret inc.

Definition is_done (op : Operation) : bool :=
  OperationStatus_eqb (op_status op) done.

(** The order that answers a completed entry: one lot, on the side that
    [check_done_orders] chooses, at the pricer's price. *)
Definition mirror_post (search : string -> Response MarketInstrument)
    (book : string -> Response Orderbook) (op : Operation) : event :=
  ELimitOrderPost (op_figi op)
    (limit_order (quoted search book (op_figi op))
       (answer_side (operation_type op)) 1).

(** ** A brokerage with fixed answers, and worked inputs *)

Module Example.

Definition instrument (f : string) (cur : Currency) (tick : float)
  : MarketInstrument :=
  {| mi_figi := f; mi_ticker := f; mi_currency := cur;
     mi_min_price_increment := tick |}.

Definition quote (bid_p ask_p last_p close_p tick : float) : Orderbook :=
  {| asks := [ {| price := ask_p; quantity := 3 |} ];
     bids := [ {| price := bid_p; quantity := 5 |} ];
     ob_last_price := Some last_p;
     ob_close_price := Some close_p;
     ob_min_price_increment := tick |}.

Definition empty_book : Orderbook :=
  {| asks := []; bids := [];
     ob_last_price := None; ob_close_price := None;
     ob_min_price_increment := 0 |}.

(** AAA: bid 100, ask 101, last 102, close 110, tick 0.5.
    BBB: bid 100, ask 101, last 100, close 101.04, tick 0.5.
    CCC: bid 100, ask 101, last 100, close 100.96, tick 0.5.
    TIE: bid 100, ask 101, last 100, close 101.25, tick 0.5.
    FRAC: bid 0.02, ask 0.04, last 0.03, close 0.05, tick 0.005.
    ZERO: last price 0.
    DOWN: the quote service answers 500. *)
Definition search (f : string) : Response MarketInstrument :=
  {| status_code := 200;
     payload := instrument f usd
                  (if String.eqb f "FRAC" then 0.005 else 0.5) |}.

Definition book (f : string) : Response Orderbook :=
  if String.eqb f "AAA" then
    {| status_code := 200; payload := quote 100 101 102 110 0.5 |}
  else if String.eqb f "BBB" then
    {| status_code := 200; payload := quote 100 101 100 101.04 0.5 |}
  else if String.eqb f "CCC" then
    {| status_code := 200; payload := quote 100 101 100 100.96 0.5 |}
  else if String.eqb f "TIE" then
    {| status_code := 200; payload := quote 100 101 100 101.25 0.5 |}
  else if String.eqb f "FRAC" then
    {| status_code := 200; payload := quote 0.02 0.04 0.03 0.05 0.005 |}
  else if String.eqb f "ZERO" then
    {| status_code := 200; payload := quote 100 101 0 110 0.5 |}
  else {| status_code := 500; payload := empty_book |}.

(** The gateway answers with the quotes above, lists the given open orders
    and history entries, and accepts every cancel and order; its state
    counts the calls. *)
Definition gw (open : list Order) (trades : list Operation) : Gateway nat :=
  {| market_orderbook_get := fun f _ n => (book f, S n);
     market_search_by_figi_get := fun f n => (search f, S n);
     orders_get := fun n => ({| status_code := 200; payload := open |}, S n);
     orders_cancel_post := fun _ n =>
       ({| status_code := 200; payload := tt |}, S n);
     orders_limit_order_post := fun _ _ n =>
       ({| status_code := 200; payload := tt |}, S n);
     operations_get := fun _ _ n =>
       ({| status_code := 200; payload := trades |}, S n);
     datetime_now := fun n => Z.of_nat n |}.

Definition order (id f : string) (op : OperationType) (p : float) (lots : Z)
  : Order :=
  {| order_id := id; order_figi := f; order_operation := op;
     order_price := p; requested_lots := lots |}.

Definition company (f : string) : CompanyData := quoted search book f.

Definition trade (f : string) (st : OperationStatus)
    (t : HistoryOperationType) : Operation :=
  {| op_figi := f; op_status := st; operation_type := t; op_quantity := 7 |}.

(** A valuation quoted in roubles. *)
Definition rouble (f : string) (bid_p last_p close_p : float) : CompanyData :=
  {| figi := f; ticker := f;
     ask := {| price := last_p; quantity := 1 |};
     bid := {| price := bid_p; quantity := 1 |};
     currency := rub;
     last_price := Some last_p;
     minPriceIncrement := 0.01;
     close_price := Some close_p |}.

End Example.

End B64.

(** * Properties *)

(** ** Running the monad *)

Section Running.

Context {G : Type}.

Lemma bind_ret {A B} (m : M G A) (f : A -> M G B) g a g1 t1 :
  m g = (Ret a, g1, t1) -> bind m f g = prepend t1 (f a g1).
Proof.
  intros H. unfold bind, prepend. rewrite H.
  destruct (f a g1) as [[r g2] t2]. reflexivity.
Qed.

Lemma bind_raise {A B} (m : M G A) (f : A -> M G B) g e g1 t1 :
  m g = (Raise e, g1, t1) -> bind m f g = (Raise e, g1, t1).
Proof. intros H. unfold bind. now rewrite H. Qed.

Lemma prepend_nil {A} (o : Result A * G * list event) : prepend [] o = o.
Proof. now destruct o as [[r g] t]. Qed.

Lemma bind_pure {A B} (m : M G A) (f : A -> M G B) g a :
  m g = (Ret a, g, []) -> bind m f g = f a g.
Proof.
  intros H. rewrite (bind_ret _ _ _ _ _ _ H). apply prepend_nil.
Qed.

Lemma bind_ret_l {A B} (a : A) (f : A -> M G B) g :
  bind (ret a) f g = f a g.
Proof. now apply bind_pure. Qed.

Lemma bind_assoc {A B C} (m : M G A) (f : A -> M G B) (k : B -> M G C) g :
  bind (bind m f) k g = bind m (fun x => bind (f x) k) g.
Proof.
  unfold bind. destruct (m g) as [[[a | e |] g1] t1]; trivial.
  destruct (f a g1) as [[[b | e |] g2] t2]; trivial.
  destruct (k b g2) as [[r g3] t3]. now rewrite List.app_assoc.
Qed.

Lemma bind_call {A B} ev (h : G -> A * G) (f : A -> M G B) g :
  bind (call ev h) f g = prepend [ev] (f (fst (h g)) (snd (h g))).
Proof.
  apply bind_ret. unfold call. now destruct (h g).
Qed.

(** A property of every event carries over a [bind] and a loop. *)
Lemma bind_Forall {A B} (P : event -> Prop) (m : M G A) (f : A -> M G B) g :
  Forall P (trace_of (m g)) ->
  (forall a g1, Forall P (trace_of (f a g1))) ->
  Forall P (trace_of (bind m f g)).
Proof.
  intros Hm Hf. unfold bind.
  destruct (m g) as [[[a | e |] g1] t1]; simpl in *; trivial.
  specialize (Hf a g1). destruct (f a g1) as [[r g2] t2]; simpl in *.
  apply Forall_app; now split.
Qed.

Lemma for_each_Forall {A} (P : event -> Prop) (body : A -> M G unit) xs :
  (forall x g, Forall P (trace_of (body x g))) ->
  forall g, Forall P (trace_of (for_each xs body g)).
Proof.
  intros Hb. induction xs as [| x rest IH]; intros g; simpl.
  - constructor.
  - apply bind_Forall; auto.
Qed.

Lemma call_Forall {A} (P : event -> Prop) ev (f : G -> A * G) g :
  P ev -> Forall P (trace_of (call ev f g)).
Proof.
  intros H. unfold call. destruct (f g); simpl. now constructor.
Qed.

Lemma ret_Forall {A} (P : event -> Prop) (a : A) (g : G) :
  Forall P (trace_of (ret a g)).
Proof. constructor. Qed.

Lemma raise_Forall {A} (P : event -> Prop) e (g : G) :
  Forall P (trace_of (@raise G A e g)).
Proof. constructor. Qed.

End Running.

(** ** The text of an exception *)

(** [str(e) == "429"] holds for [Exception(n)] exactly when [n] is 429. *)
Lemma str_exn_429 n :
  String.eqb (str_exn (Exception_int n)) "429" = (n =? 429)%Z.
Proof.
  destruct (Z.eqb_spec n 429) as [-> | Hn]; [reflexivity |].
  apply String.eqb_neq. intros H. apply Hn. simpl in H.
  assert (Hi : NilZero.int_of_string (NilZero.string_of_int (Z.to_int n))
               = NilZero.int_of_string "429") by now rewrite H.
  destruct n as [| p | p]; try discriminate.
  rewrite NilZero.isi in Hi.
  - change (NilZero.int_of_string "429") with (Some (Z.to_int 429)) in Hi.
    injection Hi as Hi.
    now apply DecimalPos.Unsigned.to_uint_inj in Hi as ->.
  - simpl. intros [= E]. now apply (DecimalPos.Unsigned.to_uint_nonnil p).
  - discriminate.
Qed.

(** ** The effectful code in terms of the gateway's answers *)

Section Facts.

Context {G : Type} (gw : Gateway G).

Lemma get_income_run (c : CompanyData) (g : G) :
  get_income c g = (income_of c, g, []).
Proof.
  unfold get_income, get_delta, income_of, as_float, fdiv, bind, ret, raise.
  destruct (close_price c) as [cp |]; [| reflexivity].
  destruct (last_price c) as [lp |]; [| reflexivity].
  destruct (feq lp 0); reflexivity.
Qed.

Lemma get_price_run (f : string) (g : G) :
  get_price gw f g =
  (if (status_code (fst (market_orderbook_get gw f 1 g)) =? 200)%Z
   then Ret (fill_empty_sides (payload (fst (market_orderbook_get gw f 1 g))))
   else Raise (Exception_int
                 (status_code (fst (market_orderbook_get gw f 1 g)))),
   snd (market_orderbook_get gw f 1 g),
   [EOrderbookGet f 1]).
Proof.
  unfold get_price, bind, call, ret, raise.
  destruct (market_orderbook_get gw f 1 g) as [info g1]; simpl.
  destruct (status_code info =? 200)%Z; reflexivity.
Qed.

Lemma index0_asks (book : Orderbook) (g : G) :
  index0 (asks (fill_empty_sides book)) g = (Ret (first_ask book), g, []).
Proof.
  unfold fill_empty_sides, first_ask; simpl.
  destruct (asks book); reflexivity.
Qed.

Lemma index0_bids (book : Orderbook) (g : G) :
  index0 (bids (fill_empty_sides book)) g = (Ret (first_bid book), g, []).
Proof.
  unfold fill_empty_sides, first_bid; simpl.
  destruct (bids book); reflexivity.
Qed.

Lemma get_info_by_figi_run (f : string) (g : G) :
  let search := market_search_by_figi_get gw f g in
  let quote := market_orderbook_get gw f 1 (snd search) in
  get_info_by_figi gw f g =
  if (status_code (fst search) =? 200)%Z then
    (if (status_code (fst quote) =? 200)%Z
     then Ret (Some (company_of_search f (payload (fst search))
                                       (payload (fst quote))))
     else Raise (Exception_int (status_code (fst quote))),
     snd quote, [ESearchByFigi f; EOrderbookGet f 1])
  else (Ret None, snd search, [ESearchByFigi f]).
Proof.
  intros search quote. unfold get_info_by_figi.
  unfold bind at 1. unfold call at 1. fold search.
  destruct search as [response g1] eqn:Hs. simpl fst; simpl snd.
  destruct (status_code response =? 200)%Z; [| reflexivity].
  unfold bind at 1. rewrite get_price_run. subst quote. simpl snd.
  destruct (status_code (fst (market_orderbook_get gw f 1 g1)) =? 200)%Z;
    [| reflexivity].
  rewrite (bind_pure _ _ _ _ (index0_asks _ _)).
  rewrite (bind_pure _ _ _ _ (index0_bids _ _)).
  reflexivity.
Qed.

(** Reading quotes places and cancels nothing. *)
Lemma get_info_by_figi_no_action (f : string) (g : G) :
  actions (trace_of (get_info_by_figi gw f g)) = [].
Proof.
  pose proof (get_info_by_figi_run f g) as H. cbv zeta in H. rewrite H.
  destruct (status_code (fst (market_search_by_figi_get gw f g)) =? 200)%Z;
    reflexivity.
Qed.

Lemma get_info_by_figi_figi (f : string) (g g1 : G) c t :
  get_info_by_figi gw f g = (Ret (Some c), g1, t) -> figi c = f.
Proof.
  pose proof (get_info_by_figi_run f g) as H. cbv zeta in H. rewrite H.
  destruct (_ =? 200)%Z; [| discriminate].
  destruct (_ =? 200)%Z; [| discriminate].
  now intros [= <- _ _].
Qed.

Lemma create_limit_order_run (c : CompanyData) (op : OperationType)
    (lots : Z) (g : G) :
  create_limit_order gw c op lots g =
  match income_of c with
  | Ret _ =>
      let post :=
        orders_limit_order_post gw (figi c) (limit_order c op lots) g in
      (Ret (status_code (fst post) =? 200)%Z, snd post,
       [ELimitOrderPost (figi c) (limit_order c op lots)])
  | Raise e => (Raise e, g, [])
  | OutOfFuel => (OutOfFuel, g, [])
  end.
Proof.
  unfold create_limit_order, create_order.
  replace (if OperationType_eqb op buy
           then get_bid c + minPriceIncrement c
           else get_ask c - minPriceIncrement c)
    with (limit_price c op) by now destruct op.
  fold (limit_order c op lots).
  unfold bind at 1. rewrite get_income_run.
  destruct (income_of c) as [inc | e |] eqn:E; try reflexivity.
  unfold bind at 1. rewrite get_income_run, E.
  unfold bind, call.
  destruct (orders_limit_order_post gw (figi c) (limit_order c op lots) g)
    as [response g1]; simpl.
  destruct (status_code response =? 200)%Z; reflexivity.
Qed.

Ltac monad_norm :=
  repeat first
    [ rewrite bind_assoc | rewrite bind_ret_l | progress cbv beta iota ].

Lemma bind_get_income {B} (c : CompanyData) (f : float -> M G B) (g : G) :
  bind (get_income c) f g =
  match income_of c with
  | Ret inc => f inc g
  | Raise e => (Raise e, g, [])
  | OutOfFuel => (OutOfFuel, g, [])
  end.
Proof.
  unfold bind at 1. rewrite get_income_run.
  destruct (income_of c); trivial. now destruct (f a g) as [[r g2] t2].
Qed.

(** One turn of the reconciliation loop, once the valuation is built. *)
Lemma update_body_run (min_ratio : float) (o : Order) (g g1 : G) c t1 :
  get_info_by_figi gw (order_figi o) g = (Ret (Some c), g1, t1) ->
  update_active_orders_body gw min_ratio o g =
  if drifted c o then
    match income_of c with
    | Ret inc =>
        let g2 := snd (orders_cancel_post gw (order_id o) g1) in
        let body := limit_order c (order_operation o) 1 in
        if threshold_cleared inc min_ratio (order_operation o) then
          (Ret tt, snd (orders_limit_order_post gw (figi c) body g2),
           t1 ++ [ECancel (order_id o); ELimitOrderPost (figi c) body])
        else (Ret tt, g2, t1 ++ [ECancel (order_id o)])
    | Raise e => (Raise e, g1, t1)
    | OutOfFuel => (OutOfFuel, g1, t1)
    end
  else (Ret tt, g1, t1).
Proof.
  intros H. unfold update_active_orders_body.
  rewrite (bind_ret _ _ _ _ _ _ H).
  unfold drifted, best_price, threshold_cleared.
  destruct (order_operation o) eqn:Eop;
    cbn [OperationType_eqb deref andb]; monad_norm.
  all: destruct (float_eq _ (order_price o)); cbn [negb]; monad_norm.
  all: try (unfold ret, prepend; cbn; now rewrite List.app_nil_r).
  all: rewrite bind_get_income.
  all: destruct (income_of c) as [inc | e |] eqn:E;
    try (unfold prepend; cbn; now rewrite List.app_nil_r).
  all: rewrite bind_call, !bind_get_income, !E, ?andb_true_r, ?andb_false_r.
  all: monad_norm; rewrite ?bind_get_income, ?E; monad_norm.
  all: rewrite ?andb_true_r, ?andb_false_r.
  all: destruct (fgt _ min_ratio); monad_norm;
    rewrite ?bind_get_income, ?E; monad_norm;
    rewrite ?andb_true_r, ?andb_false_r; monad_norm.
  all: unfold bind; rewrite ?create_limit_order_run, ?E;
    unfold ret, prepend; cbn; rewrite <- ?List.app_assoc; reflexivity.
Qed.

Lemma update_body_none (min_ratio : float) (o : Order) (g g1 : G) t1 :
  get_info_by_figi gw (order_figi o) g = (Ret None, g1, t1) ->
  update_active_orders_body gw min_ratio o g = (Raise AttributeError, g1, t1).
Proof.
  intros H. unfold update_active_orders_body.
  rewrite (bind_ret _ _ _ _ _ _ H).
  destruct (order_operation o); cbn [OperationType_eqb deref]; monad_norm;
    unfold bind, raise, prepend; cbn; now rewrite List.app_nil_r.
Qed.

Lemma update_body_raise (min_ratio : float) (o : Order) (g g1 : G) e t1 :
  get_info_by_figi gw (order_figi o) g = (Raise e, g1, t1) ->
  update_active_orders_body gw min_ratio o g = (Raise e, g1, t1).
Proof. intros H. now apply bind_raise. Qed.

(** One turn of the settlement responder on a completed trade, once the
    valuation is built. *)
Lemma check_done_body_skip (op : Operation) (g : G) :
  op_status op <> done -> check_done_orders_body gw op g = (Ret tt, g, []).
Proof.
  intros Hd. unfold check_done_orders_body.
  destruct (op_status op); try reflexivity. now elim Hd.
Qed.

End Facts.

(** ** Candidate screener *)

Lemma is_valid_company_run {G} (rate : float) (c : CompanyData)
    (changed : bool) (min_income max_price : float) (g : G) :
  let gates (v : float) : Result bool * G * list event :=
    if fgt v max_price then (Ret false, g, [])
    else
      match income_of c with
      | Ret income =>
          (Ret (negb (flt income min_income)
                && negb (changed && negb (is_changed c))), g, [])
      | Raise e => (Raise e, g, [])
      | OutOfFuel => (OutOfFuel, g, [])
      end in
  is_valid_company rate c changed min_income max_price g =
  match currency c, last_price c with
  | rub, Some lp =>
      if feq rate 0 then (Raise ZeroDivisionError, g, []) else gates (lp / rate)
  | usd, Some lp => gates lp
  | other_currency _, _ => (Ret false, g, [])
  | _, None => (Raise TypeError, g, [])
  end.
Proof.
  intros gates. unfold is_valid_company.
  assert (Hg : forall v,
    (v0 <- as_float (Some v) ;;
     if fgt v0 max_price then ret false
     else
       income <- get_income c ;;
       if flt income min_income then ret false
       else if changed && negb (is_changed c) then ret false
       else ret true) g = gates v).
  { intros v. cbn [as_float]. rewrite bind_ret_l. subst gates. cbv beta.
    destruct (fgt v max_price); [reflexivity |].
    rewrite bind_get_income. destruct (income_of c); try reflexivity.
    destruct (flt a min_income); [reflexivity |].
    now destruct (changed && negb (is_changed c)). }
  destruct (currency c); [| | reflexivity].
  - destruct (last_price c) as [lp |]; [| reflexivity].
    cbn [as_float]. rewrite bind_ret_l. unfold fdiv.
    destruct (feq rate 0); [reflexivity |].
    rewrite bind_ret_l. apply Hg.
  - destruct (last_price c) as [lp |]; [apply Hg | reflexivity].
Qed.

(** C6 (the code raises).  A valuation quoted in roubles or dollars whose
    last price is zero makes the screener raise [ZeroDivisionError] as
    soon as the price cap is not negative: nothing excludes it first. *)
Theorem is_valid_company_zero_last_price_raises
    {G} (rate : float) (c : CompanyData) (changed : bool)
    (min_income max_price : float) (g : G) (cp : float) :
  last_price c = Some 0 ->
  close_price c = Some cp ->
  currency c = rub \/ currency c = usd ->
  fle 0 max_price = true ->
  is_valid_company rate c changed min_income max_price g =
  (Raise ZeroDivisionError, g, []).
Proof.
  intros Hlp Hcp Hcur Hmax.
  pose proof (is_valid_company_run rate c changed min_income max_price g)
    as H.
  cbv zeta in H. rewrite H. clear H.
  assert (Hi : income_of c = Raise ZeroDivisionError).
  { unfold income_of. now rewrite Hlp, Hcp. }
  rewrite Hlp, Hi.
  assert (H0 : fgt 0 max_price = false).
  { unfold fgt, flt. unfold fle in Hmax. now rewrite Hmax. }
  destruct Hcur as [-> | ->].
  - destruct (feq rate 0); [reflexivity |].
    assert (Hq : fgt (0 / rate) max_price = false).
    { unfold fgt, flt. apply negb_false_iff, Qle_bool_iff.
      apply Qle_bool_iff in Hmax. unfold Qdiv. now rewrite Qmult_0_l. }
    now rewrite Hq.
  - now rewrite H0.
Qed.

Lemma is_valid_company_zero_last_price_raises_witness :
  is_valid_company 91 (Example.company "ZERO") false (1 # 100) 1000
    (Example.broker []) =
  (Raise ZeroDivisionError, Example.broker [], []).
Proof.
  exact (is_valid_company_zero_last_price_raises 91 (Example.company "ZERO")
           false (1 # 100) 1000 (Example.broker []) 110
           eq_refl eq_refl (or_intror eq_refl) eq_refl).
Defined.

(** ** Reconciliation: a failing quote *)

Lemma update_active_orders_run {G} (gw : Gateway G) (min_ratio : float)
    (g : G) :
  update_active_orders gw min_ratio g =
  if (status_code (fst (orders_get gw g)) =? 200)%Z then
    prepend [EOrdersGet]
      (for_each (payload (fst (orders_get gw g)))
         (update_active_orders_body gw min_ratio) (snd (orders_get gw g)))
  else (Raise (Exception_str "can't update orders"), snd (orders_get gw g),
        [EOrdersGet]).
Proof.
  unfold update_active_orders. rewrite bind_call.
  destruct (_ =? 200)%Z; reflexivity.
Qed.

(** C7 (the code aborts the cycle).  When the quote request for the first
    open order answers with a status other than 200, the reconciliation cycle
    raises [Exception(status)]: the trace ends at that request and no call is
    made for any of the remaining orders. *)
Theorem update_active_orders_quote_failure_aborts
    {G} (gw : Gateway G) (min_ratio : float) (g : G) (o : Order)
    (rest : list Order) :
  let listed := orders_get gw g in
  let found := market_search_by_figi_get gw (order_figi o) (snd listed) in
  let quote := market_orderbook_get gw (order_figi o) 1 (snd found) in
  status_code (fst listed) = 200%Z ->
  payload (fst listed) = o :: rest ->
  status_code (fst found) = 200%Z ->
  status_code (fst quote) <> 200%Z ->
  update_active_orders gw min_ratio g =
  (Raise (Exception_int (status_code (fst quote))), snd quote,
   [EOrdersGet; ESearchByFigi (order_figi o);
    EOrderbookGet (order_figi o) 1]).
Proof.
  intros listed found quote Hl Hp Hf Hq.
  rewrite update_active_orders_run. fold listed. rewrite Hl, Hp.
  cbn [Z.eqb Pos.eqb for_each].
  pose proof (get_info_by_figi_run gw (order_figi o) (snd listed)) as H.
  cbv zeta in H. fold found in H. fold quote in H. rewrite Hf in H.
  apply Z.eqb_neq in Hq. rewrite Hq in H. cbn [Z.eqb Pos.eqb] in H.
  rewrite (bind_raise _ _ _ _ _ _ (update_body_raise gw _ _ _ _ _ _ H)).
  reflexivity.
Qed.

Lemma update_active_orders_quote_failure_aborts_witness :
  let o1 := Example.order "o1" "DOWN" buy 99 4 in
  let o2 := Example.order "o2" "AAA" buy 99 4 in
  update_active_orders (Example.gw []) (1 # 100) (Example.broker [o1; o2]) =
  (Raise (Exception_int 500), Example.broker [o1; o2],
   [EOrdersGet; ESearchByFigi "DOWN"; EOrderbookGet "DOWN" 1]).
Proof.
  intros o1 o2.
  refine (update_active_orders_quote_failure_aborts (Example.gw []) (1 # 100)
            (Example.broker [o1; o2]) o1 [o2] eq_refl eq_refl eq_refl _).
  discriminate.
Defined.

(** ** Rate-limit guard *)

Lemma sleeps_attempts (n : nat) (f : string) :
  sleeps (attempts n f) = repeat (ESleep 60) n.
Proof.
  induction n as [| n IH]; [reflexivity |].
  cbn [attempts repeat]. unfold sleeps in *. cbn. now rewrite IH.
Qed.

(** One attempt of [create_company], by the status of the quote. *)
Lemma create_company_attempt {G} (gw : Gateway G) (fuel : nat)
    (bond : MarketInstrument) (g : G) :
  let quote := market_orderbook_get gw (mi_figi bond) 1 g in
  create_company gw (S fuel) bond g =
  if (status_code (fst quote) =? 200)%Z then
    (Ret (Some (company_of_bond bond (payload (fst quote)))), snd quote,
     [EOrderbookGet (mi_figi bond) 1])
  else if (status_code (fst quote) =? 429)%Z then
    prepend [EOrderbookGet (mi_figi bond) 1; ESleep 60]
      (create_company gw fuel bond (time_sleep gw 60 (snd quote)))
  else (Ret None, snd quote, [EOrderbookGet (mi_figi bond) 1]).
Proof.
  intros quote. cbn [create_company]. unfold try_except.
  unfold bind at 1. rewrite get_price_run. fold quote.
  destruct (status_code (fst quote) =? 200)%Z.
  - rewrite (bind_pure _ _ _ _ (index0_asks _ _)).
    rewrite (bind_pure _ _ _ _ (index0_bids _ _)).
    unfold ret. cbn. reflexivity.
  - rewrite str_exn_429.
    destruct (status_code (fst quote) =? 429)%Z; [| reflexivity].
    rewrite bind_call. cbn [fst snd].
    destruct (create_company gw fuel bond (time_sleep gw 60 (snd quote)))
      as [[r g2] t2].
    reflexivity.
Qed.

(** One attempt of [create_company_limited], by the status of the quote. *)
Lemma create_company_limited_attempt {G} (gw : Gateway G) (limit : nat)
    (bond : MarketInstrument) (g : G) :
  let quote := market_orderbook_get gw (mi_figi bond) 1 g in
  create_company_limited gw (S limit) bond g =
  if (status_code (fst quote) =? 200)%Z then
    (Ret (Some (company_of_bond bond (payload (fst quote)))), snd quote,
     [EOrderbookGet (mi_figi bond) 1])
  else if (status_code (fst quote) =? 429)%Z then
    prepend [EOrderbookGet (mi_figi bond) 1; ESleep 60]
      (create_company_limited gw limit bond (time_sleep gw 60 (snd quote)))
  else (Ret None, snd quote, [EOrderbookGet (mi_figi bond) 1]).
Proof.
  intros quote. cbn [create_company_limited]. unfold try_except.
  unfold bind at 1. rewrite get_price_run. fold quote.
  destruct (status_code (fst quote) =? 200)%Z.
  - rewrite (bind_pure _ _ _ _ (index0_asks _ _)).
    rewrite (bind_pure _ _ _ _ (index0_bids _ _)).
    unfold ret. cbn. reflexivity.
  - rewrite str_exn_429.
    destruct (status_code (fst quote) =? 429)%Z; [| reflexivity].
    rewrite bind_call. cbn [fst snd].
    destruct (create_company_limited gw limit bond
                (time_sleep gw 60 (snd quote))) as [[r g2] t2].
    reflexivity.
Qed.

(** The scenario gateway throttles as many requests as it is told to. *)
Lemma service_throttled (k : nat) (book : Orderbook) (f : string)
    (n g : nat) :
  (g + n <= k)%nat -> throttled (Throttling.service k book) f n g.
Proof.
  revert g. induction n as [| n IH]; intros g Hk; [exact I |].
  assert (Hlt : Nat.ltb g k = true) by (apply Nat.ltb_lt; lia).
  cbn [throttled]. split.
  - unfold Throttling.service. cbn [market_orderbook_get fst].
    now rewrite Hlt.
  - unfold Throttling.service at 2 3.
    cbn [market_orderbook_get time_sleep snd]. apply IH. lia.
Qed.




(** ** Lots of the orders the loops submit *)

Section OneLot.

Context {G : Type} (gw : Gateway G).

Lemma get_info_by_figi_one_lot (f : string) (g : G) :
  Forall one_lot (trace_of (get_info_by_figi gw f g)).
Proof.
  pose proof (get_info_by_figi_run gw f g) as H. cbv zeta in H. rewrite H.
  destruct (_ =? 200)%Z; repeat constructor.
Qed.

Lemma create_limit_order_one_lot (c : CompanyData) (op : OperationType)
    (g : G) :
  Forall one_lot (trace_of (create_limit_order gw c op 1 g)).
Proof.
  rewrite create_limit_order_run.
  destruct (income_of c); repeat constructor.
Qed.

Lemma get_income_one_lot (c : CompanyData) (g : G) :
  Forall one_lot (trace_of (@get_income G c g)).
Proof. rewrite get_income_run. constructor. Qed.

Ltac one_lot_step :=
  match goal with
  | |- Forall _ (trace_of (bind _ _ _)) => apply bind_Forall; [| intros ? ?]
  | |- Forall _ (trace_of (ret _ _)) => apply ret_Forall
  | |- Forall _ (trace_of (raise _ _)) => apply raise_Forall
  | |- Forall _ (trace_of (call _ _ _)) => apply call_Forall; exact I
  | |- Forall _ (trace_of (get_income _ _)) => apply get_income_one_lot
  | |- Forall _ (trace_of (get_info_by_figi _ _ _)) =>
      apply get_info_by_figi_one_lot
  | |- Forall _ (trace_of (create_limit_order _ _ _ _ _)) =>
      apply create_limit_order_one_lot
  | |- Forall _ (trace_of (deref ?c _)) => destruct c; cbn [deref]
  | |- Forall _ (trace_of ((if ?b then _ else _) _)) => destruct b
  end.

Lemma update_body_one_lot (min_ratio : float) (o : Order) (g : G) :
  Forall one_lot (trace_of (update_active_orders_body gw min_ratio o g)).
Proof. unfold update_active_orders_body. repeat one_lot_step. Qed.

Lemma check_done_body_one_lot (op : Operation) (g : G) :
  Forall one_lot (trace_of (check_done_orders_body gw op g)).
Proof. unfold check_done_orders_body. repeat one_lot_step. Qed.

End OneLot.

(** C10.  Whatever the gateway answers, every limit order submitted during a
    reconciliation cycle or a settlement pass asks for exactly one lot; the
    lots of the order being replaced and the quantity of the completed trade
    are not read. *)
Theorem submitted_orders_have_one_lot
    {G} (gw : Gateway G) (min_ratio : float) (from_time : Z) (g : G) :
  Forall one_lot (trace_of (update_active_orders gw min_ratio g)) /\
  Forall one_lot (trace_of (check_done_orders gw from_time g)).
Proof.
  split.
  - unfold update_active_orders. apply bind_Forall.
    + apply call_Forall. exact I.
    + intros r g1. destruct (_ =? 200)%Z; [| apply raise_Forall].
      apply for_each_Forall. apply update_body_one_lot.
  - unfold check_done_orders. apply bind_Forall; [constructor |].
    intros to_time g0. apply bind_Forall.
    + apply call_Forall. exact I.
    + intros r g1. destruct (_ =? 200)%Z; [| apply raise_Forall].
      apply for_each_Forall. apply check_done_body_one_lot.
Qed.

(** ** Two reconciliation passes in a row *)

Section Quiet.

Context {G : Type} (gw : Gateway G).

Lemma settled_body_quiet (min_ratio : float) (o : Order) (g : G) :
  settled gw o ->
  result_of (update_active_orders_body gw min_ratio o g) = Ret tt /\
  state_of (update_active_orders_body gw min_ratio o g) = g /\
  actions (trace_of (update_active_orders_body gw min_ratio o g)) = [].
Proof.
  intros (c & t & Hq & Hd).
  rewrite (update_body_run gw min_ratio o g g c t (Hq g)), Hd.
  repeat split.
  pose proof (get_info_by_figi_no_action gw (order_figi o) g) as Ha.
  now rewrite Hq in Ha.
Qed.

Lemma settled_loop_quiet (min_ratio : float) (os : list Order) :
  (forall o, In o os -> settled gw o) ->
  forall g,
    result_of (for_each os (update_active_orders_body gw min_ratio) g)
    = Ret tt /\
    actions (trace_of (for_each os (update_active_orders_body gw min_ratio) g))
    = [].
Proof.
  induction os as [| o os IH]; intros Hs g; [now split |].
  cbn [for_each].
  destruct (settled_body_quiet min_ratio o g (Hs o (or_introl eq_refl)))
    as (Hr & Hg & Ha).
  destruct (update_active_orders_body gw min_ratio o g) as [[r g1] t1] eqn:E.
  cbn in Hr, Hg, Ha. subst r g1.
  rewrite (bind_ret _ _ _ _ _ _ E).
  destruct (IH (fun o' H => Hs o' (or_intror H)) g) as [Hr' Ha'].
  unfold prepend. cbn [result_of trace_of fst snd]. split; [exact Hr' |].
  unfold actions in *. now rewrite filter_app, Ha, Ha'.
Qed.

End Quiet.

Section IdealBrokerPasses.

Variable search : string -> Response MarketInstrument.
Variable book : string -> Response Orderbook.
Variable trades : list Operation.

Let gw := IdealBroker.gateway search book trades.

(** On the ideal broker reading quotes leaves the state alone, and the answer
    does not depend on it. *)
Lemma ideal_get_info (f : string) :
  exists r t, forall b, get_info_by_figi gw f b = (r, b, t).
Proof.
  destruct (status_code (search f) =? 200)%Z eqn:Es;
    [destruct (status_code (book f) =? 200)%Z eqn:Eb |];
    do 2 eexists; intros b;
    pose proof (get_info_by_figi_run gw f b) as H; cbv zeta in H;
    cbn [gw IdealBroker.gateway market_search_by_figi_get
         market_orderbook_get fst snd] in H;
    rewrite Es, ?Eb in H; exact H.
Qed.

(** A turn that completes without submitting: either the order was at rest,
    or it was cancelled and is gone from the open orders. *)
Lemma ideal_body_no_post (min_ratio : float) (o : Order)
    (b : IdealBroker.Broker) :
  let out := update_active_orders_body gw min_ratio o b in
  result_of out = Ret tt ->
  posts (trace_of out) = [] ->
  (settled gw o /\ state_of out = b) \/
  state_of out = IdealBroker.remove_order (order_id o) b.
Proof.
  intros out Hr Hp. subst out.
  destruct (ideal_get_info (order_figi o)) as (r & t & Hq).
  destruct r as [[c |] | e |].
  - rewrite (update_body_run gw min_ratio o b b c t (Hq b)) in *.
    destruct (drifted c o) eqn:Hd.
    + destruct (income_of c) as [inc | e |]; try discriminate.
      cbv zeta in *.
      destruct (threshold_cleared inc min_ratio (order_operation o)).
      * exfalso. cbn [trace_of snd] in Hp. unfold posts in Hp.
        rewrite filter_app in Hp. apply app_eq_nil in Hp as [_ Hp].
        discriminate.
      * right. reflexivity.
    + left. split; [| reflexivity]. exists c, t. now split.
  - rewrite (update_body_none gw min_ratio o b b t (Hq b)) in Hr.
    discriminate.
  - rewrite (update_body_raise gw min_ratio o b b e t (Hq b)) in Hr.
    discriminate.
  - exfalso. unfold update_active_orders_body in Hr.
    unfold bind at 1 in Hr. rewrite Hq in Hr. discriminate.
Qed.

Lemma remove_order_subset (id : string) (b : IdealBroker.Broker) (o : Order) :
  In o (IdealBroker.open_orders (IdealBroker.remove_order id b)) ->
  In o (IdealBroker.open_orders b) /\ order_id o <> id.
Proof.
  cbn. rewrite filter_In. intros [Hin Hne]. split; [exact Hin |].
  apply negb_true_iff, String.eqb_neq in Hne. exact Hne.
Qed.

(** A pass that completes without submitting leaves open only orders that
    were open before, and none with the id of an order it found drifted. *)
Lemma ideal_loop_no_post (min_ratio : float) (os : list Order) :
  forall b,
    let out := for_each os (update_active_orders_body gw min_ratio) b in
    result_of out = Ret tt ->
    posts (trace_of out) = [] ->
    (forall o', In o' (IdealBroker.open_orders (state_of out)) ->
                In o' (IdealBroker.open_orders b)) /\
    (forall o, In o os ->
       settled gw o \/
       forall o', In o' (IdealBroker.open_orders (state_of out)) ->
                  order_id o' <> order_id o).
Proof.
  induction os as [| o os IH]; intros b out Hr Hp.
  - split; [auto | intros o []].
  - subst out. cbn [for_each] in *.
    destruct (update_active_orders_body gw min_ratio o b)
      as [[r b1] t1] eqn:E.
    destruct r as [[] | e |];
      [| rewrite (bind_raise _ _ _ _ _ _ E) in Hr; discriminate
       | unfold bind in Hr; rewrite E in Hr; discriminate ].
    rewrite (bind_ret _ _ _ _ _ _ E) in *.
    unfold prepend in *. cbn [result_of state_of trace_of fst snd] in *.
    unfold posts in Hp. rewrite filter_app in Hp.
    apply app_eq_nil in Hp as [Hp1 Hp2].
    destruct (IH b1 Hr Hp2) as [Hsub Hrest].
    pose proof (ideal_body_no_post min_ratio o b) as Hbody.
    cbv zeta in Hbody. rewrite E in Hbody.
    specialize (Hbody eq_refl Hp1). cbn [state_of fst snd] in Hbody.
    destruct Hbody as [[Hs ->] | ->].
    + split; [exact Hsub |].
      intros o0 [<- | Hin]; [now left | now apply Hrest].
    + split.
      * intros o' Hin. now apply (remove_order_subset (order_id o)), Hsub.
      * intros o0 [<- | Hin]; [| now apply Hrest].
        right. intros o' Hin'.
        now apply (remove_order_subset (order_id o) b), Hsub.
Qed.

Lemma ideal_update_run (min_ratio : float) (b : IdealBroker.Broker) :
  update_active_orders gw min_ratio b =
  prepend [EOrdersGet]
    (for_each (IdealBroker.open_orders b)
       (update_active_orders_body gw min_ratio) b).
Proof. now rewrite update_active_orders_run. Qed.

End IdealBrokerPasses.

(** C2 (as the code has it).  On a brokerage with fixed quotes that honours
    every cancel, a reconciliation pass that completes without submitting a
    replacement order is followed by a pass that completes with no cancel and
    no replacement: the orders still open all rest at the best price of their
    side. *)
Theorem second_pass_quiet_without_replacement
    (search : string -> Response MarketInstrument)
    (book : string -> Response Orderbook) (trades : list Operation)
    (min_ratio : float) (b : IdealBroker.Broker) :
  let gw := IdealBroker.gateway search book trades in
  let first := update_active_orders gw min_ratio b in
  let second := update_active_orders gw min_ratio (state_of first) in
  result_of first = Ret tt ->
  posts (trace_of first) = [] ->
  result_of second = Ret tt /\ actions (trace_of second) = [].
Proof.
  intros gw first second Hr Hp. subst first second gw.
  rewrite ideal_update_run in *.
  set (gw := IdealBroker.gateway search book trades) in *.
  set (out := for_each (IdealBroker.open_orders b)
                (update_active_orders_body gw min_ratio) b) in *.
  unfold prepend in Hr, Hp. cbn [result_of trace_of fst snd app] in Hr, Hp.
  unfold posts in Hp. cbn [filter is_post] in Hp.
  destruct (ideal_loop_no_post search book trades min_ratio
              (IdealBroker.open_orders b) b Hr Hp) as [Hsub Hrest].
  fold gw in Hsub, Hrest. fold out in Hsub, Hrest.
  unfold prepend at 1 2. cbn [state_of fst snd].
  subst gw. rewrite ideal_update_run.
  set (gw := IdealBroker.gateway search book trades) in *.
  assert (Hs : forall o, In o (IdealBroker.open_orders (state_of out)) ->
                         settled gw o).
  { intros o Hin. destruct (Hrest o (Hsub o Hin)) as [Hs | Hne];
      [exact Hs | now elim (Hne o Hin)]. }
  destruct (settled_loop_quiet gw min_ratio _ Hs (state_of out)) as [Hr2 Ha2].
  unfold prepend. cbn [result_of trace_of fst snd]. split; [exact Hr2 |].
  unfold actions in *. cbn [app filter is_action]. exact Ha2.
Qed.

(** The first pass cancels a drifted order whose income misses the threshold
    and leaves the other order alone; the second pass does nothing. *)
Lemma second_pass_quiet_without_replacement_witness :
  let b := Example.broker [Example.order "o1" "BBB" buy 99 4;
                           Example.order "o2" "AAA" buy 100 2] in
  let first := update_active_orders (Example.gw []) (1 # 100) b in
  let second := update_active_orders (Example.gw []) (1 # 100)
                  (state_of first) in
  actions (trace_of first) = [ECancel "o1"] /\
  result_of second = Ret tt /\ actions (trace_of second) = [].
Proof.
  intros b first second. split; [reflexivity |].
  exact (second_pass_quiet_without_replacement Example.search Example.book []
           (1 # 100) b eq_refl eq_refl).
Defined.

(** C2 as stated fails: with the same quotes in both passes, the order that
    the first pass submitted at best bid + tick is cancelled and submitted
    again by the second. *)
Lemma second_pass_replaces_again :
  let b := Example.broker [Example.order "o1" "AAA" buy 99 4] in
  let first := update_active_orders (Example.gw []) (1 # 100) b in
  let second := update_active_orders (Example.gw []) (1 # 100)
                  (state_of first) in
  actions (trace_of second) =
  [ECancel "new-0";
   ELimitOrderPost "AAA"
     {| lo_price := 201 # 2; lo_lots := 1; lo_operation := buy |}] /\
  ~ (actions (trace_of second) = []).
Proof.
  intros b first second. split; [reflexivity | discriminate].
Qed.

(** * Further properties of the program *)

(** ** Rounding *)

Ltac compare_facts :=
  repeat match goal with
  | H : Qcompare _ _ = Eq |- _ => apply Qeq_alt in H
  | H : Qcompare _ _ = Lt |- _ => apply Qlt_alt in H
  | H : Qcompare _ _ = Gt |- _ => apply Qgt_alt in H
  end.

Lemma round_half_even_bounds (x : Q) :
  inject_Z (round_half_even x) - (1 # 2) <= x /\
  x <= inject_Z (round_half_even x) + (1 # 2).
Proof.
  unfold round_half_even.
  pose proof (Qfloor_le x) as Hlo. pose proof (Qlt_floor x) as Hhi.
  rewrite inject_Z_plus in Hhi. change (inject_Z 1) with 1 in Hhi.
  destruct (Qcompare (x - inject_Z (Qfloor x)) (1 # 2)) eqn:E; compare_facts.
  - destruct (Z.even (Qfloor x)); rewrite ?inject_Z_plus;
      change (inject_Z 1) with 1; split; lra.
  - split; lra.
  - rewrite inject_Z_plus. change (inject_Z 1) with 1. split; lra.
Qed.

Lemma round_half_even_comp (x y : Q) :
  x == y -> round_half_even x = round_half_even y.
Proof.
  intros H. unfold round_half_even. rewrite (Qfloor_comp _ _ H).
  assert (E : x - inject_Z (Qfloor y) == y - inject_Z (Qfloor y))
    by (rewrite H; reflexivity).
  now rewrite (Qcompare_comp _ _ E _ _ (Qeq_refl (1 # 2))).
Qed.

Lemma round_half_even_Z (z : Z) : round_half_even (inject_Z z) = z.
Proof.
  unfold round_half_even. rewrite Qfloor_Z.
  assert (E : Qcompare (inject_Z z - inject_Z z) (1 # 2) = Lt).
  { apply Qlt_alt. unfold Qminus. rewrite Qplus_opp_r. reflexivity. }
  now rewrite E.
Qed.

Lemma round_half_even_near_floor (x : Q) :
  (Qfloor x <= round_half_even x <= Qfloor x + 1)%Z.
Proof.
  unfold round_half_even.
  destruct (Qcompare _ _); [destruct (Z.even _) | |]; lia.
Qed.

Lemma round_half_even_mono (x y : Q) :
  x <= y -> (round_half_even x <= round_half_even y)%Z.
Proof.
  intros Hxy.
  pose proof (Qfloor_resp_le _ _ Hxy) as Hf.
  pose proof (round_half_even_near_floor x) as Hx.
  pose proof (round_half_even_near_floor y) as Hy.
  destruct (Z.eq_dec (Qfloor x) (Qfloor y)) as [Ef | Nf]; [| lia].
  unfold round_half_even. rewrite Ef.
  destruct (Qcompare (x - inject_Z (Qfloor y)) (1 # 2)) eqn:Ex;
    destruct (Qcompare (y - inject_Z (Qfloor y)) (1 # 2)) eqn:Ey;
    compare_facts;
    try lia; try (exfalso; lra); destruct (Z.even (Qfloor y)); lia.
Qed.

Lemma pow10_pos (n : nat) : 0 < pow10 n.
Proof.
  unfold pow10. change 0 with (inject_Z 0). rewrite <- Zlt_Qlt.
  apply Z.pow_pos_nonneg; lia.
Qed.

Lemma py_round_eq (x : Q) (n : nat) :
  py_round x n == inject_Z (round_half_even (x * pow10 n)) / pow10 n.
Proof. unfold py_round. apply Qred_correct. Qed.

Lemma py_round_error (x : Q) (n : nat) :
  Qabs (py_round x n - x) <= (1 # 2) / pow10 n.
Proof.
  rewrite py_round_eq.
  pose proof (pow10_pos n) as Hp.
  destruct (round_half_even_bounds (x * pow10 n)) as [Hlo Hhi].
  set (r := inject_Z (round_half_even (x * pow10 n))) in *.
  apply Qabs_Qle_condition.
  assert (Hinv : 0 < / pow10 n) by now apply Qinv_lt_0_compat.
  assert (E : r / pow10 n - x == (r - x * pow10 n) * / pow10 n)
    by (field; lra).
  rewrite E. unfold Qdiv. split.
  - setoid_replace (- ((1 # 2) * / pow10 n)) with ((- (1 # 2)) * / pow10 n)
      by ring.
    apply Qmult_le_compat_r; lra.
  - apply Qmult_le_compat_r; lra.
Qed.

Lemma py_round_le (x y : Q) (n : nat) :
  x <= y -> py_round x n <= py_round y n.
Proof.
  intros H. rewrite !py_round_eq.
  pose proof (pow10_pos n) as Hp.
  unfold Qdiv. apply Qmult_le_compat_r.
  - rewrite <- Zle_Qle. apply round_half_even_mono.
    apply Qmult_le_compat_r; lra.
  - apply Qlt_le_weak. now apply Qinv_lt_0_compat.
Qed.

Lemma py_round_zero (n : nat) : py_round 0 n == 0.
Proof.
  rewrite py_round_eq.
  assert (E : 0 * pow10 n == inject_Z 0) by ring.
  rewrite (round_half_even_comp _ _ E), round_half_even_Z.
  unfold Qdiv. ring.
Qed.

Lemma float_eq_close (x y : Q) :
  float_eq x y = true -> Qabs (x - y) <= 1 # 1000.
Proof.
  unfold float_eq, feq. intros H. apply Qeq_bool_iff in H.
  pose proof (py_round_error x 3) as Hx.
  pose proof (py_round_error y 3) as Hy.
  apply Qabs_Qle_condition in Hx, Hy. apply Qabs_Qle_condition.
  change ((1 # 2) / pow10 3) with (1 # 2000) in Hx, Hy.
  split; lra.
Qed.


(** X2.  Rounding a rounded value to the same number of decimals changes
    nothing: [round(round(x, n), n)] is [round(x, n)]. *)
Theorem py_round_idempotent (x : float) (n : nat) :
  py_round (py_round x n) n = py_round x n.
Proof.
  unfold py_round at 1 3. apply Qred_complete.
  pose proof (pow10_pos n) as Hp.
  assert (E : py_round x n * pow10 n
              == inject_Z (round_half_even (x * pow10 n))).
  { rewrite py_round_eq. field. lra. }
  now rewrite (round_half_even_comp _ _ E), round_half_even_Z.
Qed.

(** ** The derived economics of a valuation *)

Lemma income_of_ratio (c : CompanyData) :
  income_of c =
  match ratio_of c with
  | Ret q => Ret (round_float q)
  | Raise e => Raise e
  | OutOfFuel => OutOfFuel
  end.
Proof.
  unfold income_of, ratio_of.
  destruct (close_price c), (last_price c); try reflexivity.
  now destruct (feq _ 0).
Qed.

Lemma company_lt_run {G} (a b : CompanyData) (g : G) :
  company_lt a b g =
  (match ratio_of a, ratio_of b with
   | Ret qa, Ret qb => Ret (flt qa qb)
   | Ret _, Raise e => Raise e
   | Raise e, _ => Raise e
   | _, _ => OutOfFuel
   end, g, []).
Proof.
  unfold company_lt, ratio_of, get_delta.
  destruct (close_price a) as [cpa |]; [| reflexivity].
  cbn [as_float]. rewrite bind_assoc, !bind_ret_l.
  destruct (last_price a) as [lpa |]; [| reflexivity].
  cbn [as_float]. rewrite bind_ret_l. unfold fdiv at 1.
  destruct (feq lpa 0); [reflexivity |]. rewrite bind_ret_l.
  destruct (close_price b) as [cpb |]; [| reflexivity].
  cbn [as_float]. rewrite bind_assoc, !bind_ret_l.
  destruct (last_price b) as [lpb |]; [| reflexivity].
  cbn [as_float]. rewrite bind_ret_l. unfold fdiv at 1.
  destruct (feq lpb 0); [reflexivity |]. rewrite bind_ret_l.
  now destruct (flt _ _).
Qed.



(** X4.  With a positive last price the income that [get_income] returns has
    the sign of close - best bid: it is not negative when the close is at or
    above the bid, and not positive when it is at or below. *)
Theorem get_income_sign
    {G} (c : CompanyData) (g : G) (cp lp : float) :
  close_price c = Some cp ->
  last_price c = Some lp ->
  0 < lp ->
  exists v,
    get_income c g = (Ret v, g, []) /\
    (price (bid c) <= cp -> 0 <= v) /\
    (cp <= price (bid c) -> v <= 0).
Proof.
  intros Hcp Hlp Hpos. rewrite get_income_run. unfold income_of.
  rewrite Hcp, Hlp.
  assert (E : feq lp 0 = false).
  { unfold feq. destruct (Qeq_bool lp 0) eqn:E; [| reflexivity].
    apply Qeq_bool_iff in E. lra. }
  rewrite E. eexists. split; [reflexivity |].
  assert (Hinv : 0 < / lp) by now apply Qinv_lt_0_compat.
  unfold round_float, get_bid. split; intros H.
  - rewrite <- (py_round_zero 3). apply py_round_le.
    unfold Qdiv. apply Qmult_le_0_compat; lra.
  - rewrite <- (py_round_zero 3). apply py_round_le.
    unfold Qdiv.
    setoid_replace 0 with (0 * / lp) by ring.
    apply Qmult_le_compat_r; lra.
Qed.

Lemma get_income_sign_witness :
  exists v,
    get_income (Example.company "AAA") (Example.broker []) =
    (Ret v, Example.broker [], []) /\
    (100 <= 110 -> 0 <= v) /\ (110 <= 100 -> v <= 0).
Proof.
  refine (get_income_sign (Example.company "AAA") (Example.broker [])
            110 102 eq_refl eq_refl _).
  reflexivity.
Defined.

(** X5.  [__lt__] orders valuations by the unrounded ratio, and the rounded
    income follows that order: when [a < b] is true, both incomes are defined
    and the income of [a] is at most the income of [b]. *)
Theorem company_lt_income_le {G} (a b : CompanyData) (g : G) :
  result_of (company_lt a b g) = Ret true ->
  exists ia ib,
    income_of a = Ret ia /\ income_of b = Ret ib /\ ia <= ib.
Proof.
  rewrite company_lt_run, !income_of_ratio. cbn [result_of fst].
  destruct (ratio_of a) as [qa | ea |]; try discriminate.
  destruct (ratio_of b) as [qb | eb |]; try discriminate.
  intros [= H]. exists (round_float qa), (round_float qb).
  repeat split. apply py_round_le.
  unfold flt in H. apply negb_true_iff in H.
  destruct (Qlt_le_dec qa qb) as [Hlt | Hle]; [lra |].
  apply Qle_bool_iff in Hle. congruence.
Qed.

Lemma company_lt_income_le_witness :
  exists ia ib,
    income_of (Example.company "CCC") = Ret ia /\
    income_of (Example.company "AAA") = Ret ib /\ ia <= ib.
Proof.
  exact (company_lt_income_le (Example.company "CCC") (Example.company "AAA")
           (Example.broker []) eq_refl).
Defined.

(** X6.  [__lt__] is a strict order where it answers: no valuation is below
    itself, and [a < b] with [b < c] gives [a < c]. *)
Theorem company_lt_strict_order {G} (a b c : CompanyData) (g : G) :
  result_of (company_lt a a g) <> Ret true /\
  (result_of (company_lt a b g) = Ret true ->
   result_of (company_lt b c g) = Ret true ->
   result_of (company_lt a c g) = Ret true).
Proof.
  rewrite !company_lt_run. cbn [result_of fst]. split.
  - destruct (ratio_of a) as [qa | ea |]; try discriminate.
    intros [= H]. unfold flt in H. apply negb_true_iff in H.
    assert (Hle : Qle_bool qa qa = true) by (apply Qle_bool_iff; lra).
    congruence.
  - destruct (ratio_of a) as [qa | ea |]; try discriminate.
    destruct (ratio_of b) as [qb | eb |]; try discriminate.
    destruct (ratio_of c) as [qc | ec |]; try discriminate.
    unfold flt. intros [= Hab] [= Hbc]. f_equal.
    apply negb_true_iff in Hab, Hbc. apply negb_true_iff.
    destruct (Qle_bool qc qa) eqn:E; [| reflexivity].
    apply Qle_bool_iff in E.
    destruct (Qlt_le_dec qa qb) as [H1 | H1];
      [| apply Qle_bool_iff in H1; congruence].
    destruct (Qlt_le_dec qb qc) as [H2 | H2];
      [| apply Qle_bool_iff in H2; congruence].
    lra.
Qed.

Lemma company_lt_strict_order_witness :
  result_of (company_lt (Example.company "CCC") (Example.company "AAA")
               (Example.broker [])) = Ret true.
Proof.
  exact (proj2 (company_lt_strict_order (Example.company "CCC")
                  (Example.company "BBB") (Example.company "AAA")
                  (Example.broker []))
           eq_refl eq_refl).
Defined.

(** X7.  [is_changed] answers true whenever the last price and the close
    differ by more than a thousandth, and never when one of them is missing
    or the two are equal. *)
Theorem is_changed_detects_moves (c : CompanyData) :
  (forall lp cp,
     last_price c = Some lp -> close_price c = Some cp ->
     1 # 1000 < Qabs (lp - cp) -> is_changed c = true) /\
  (is_changed c = true ->
   exists lp cp,
     last_price c = Some lp /\ close_price c = Some cp /\ ~ lp == cp).
Proof.
  unfold is_changed. split.
  - intros lp cp -> -> Hfar.
    destruct (feq (round_float lp) (round_float cp)) eqn:E; [| reflexivity].
    pose proof (float_eq_close lp cp E). lra.
  - destruct (last_price c) as [lp |]; [| discriminate].
    destruct (close_price c) as [cp |]; [| discriminate].
    intros H. exists lp, cp. repeat split. intros Heq.
    apply negb_true_iff in H. unfold feq in H.
    assert (Hr : round_float lp == round_float cp).
    { unfold round_float. rewrite !py_round_eq.
      assert (E : lp * pow10 3 == cp * pow10 3) by now rewrite Heq.
      now rewrite (round_half_even_comp _ _ E). }
    apply Qeq_bool_iff in Hr. congruence.
Qed.

Lemma is_changed_detects_moves_witness :
  is_changed (Example.company "AAA") = true.
Proof.
  exact (proj1 (is_changed_detects_moves (Example.company "AAA"))
           102 110 eq_refl eq_refl eq_refl).
Defined.

(** ** Quotes and valuations *)

(** X8.  A book that [get_price] returns has an entry on both sides, whatever
    the quote service sent, and is returned only for status 200. *)
Theorem get_price_sides_never_empty
    {G} (gw : Gateway G) (f : string) (g : G) (book : Orderbook) :
  result_of (get_price gw f g) = Ret book ->
  asks book <> [] /\ bids book <> [] /\
  status_code (fst (market_orderbook_get gw f 1 g)) = 200%Z.
Proof.
  rewrite get_price_run. cbn [result_of fst].
  destruct (_ =? 200)%Z eqn:E; [| discriminate].
  intros [= <-]. apply Z.eqb_eq in E.
  unfold fill_empty_sides. cbn [asks bids].
  repeat split; trivial.
  - destruct (asks _); cbn; discriminate.
  - destruct (bids _); cbn; discriminate.
Qed.

Lemma get_price_sides_never_empty_witness :
  let book := fill_empty_sides Throttling.empty_book in
  asks book <> [] /\ bids book <> [] /\
  status_code (fst (market_orderbook_get
                      (Throttling.service 0 Throttling.empty_book)
                      "AAA" 1 0%nat)) = 200%Z.
Proof.
  intros book.
  exact (get_price_sides_never_empty
           (Throttling.service 0 Throttling.empty_book) "AAA" 0%nat book
           eq_refl).
Defined.

(** X9.  A valuation built by [get_info_by_figi] from a book with no bids has
    best bid 10000 with quantity 0, so that a buy is priced at 10000 + tick;
    from a book with no asks it has best ask 0, so that a sell is priced at
    minus one tick. *)
Theorem get_info_by_figi_empty_side
    {G} (gw : Gateway G) (f : string) (g g1 : G) (c : CompanyData)
    (t : list event) :
  get_info_by_figi gw f g = (Ret (Some c), g1, t) ->
  let sent :=
    payload (fst (market_orderbook_get gw f 1
                    (snd (market_search_by_figi_get gw f g)))) in
  (bids sent = [] ->
   bid c = {| price := 10000; quantity := 0 |} /\
   limit_price c buy = 10000 + minPriceIncrement c) /\
  (asks sent = [] ->
   ask c = {| price := 0; quantity := 0 |} /\
   limit_price c sell = 0 - minPriceIncrement c).
Proof.
  pose proof (get_info_by_figi_run gw f g) as H. cbv zeta in H. rewrite H.
  destruct (_ =? 200)%Z; [| discriminate].
  destruct (_ =? 200)%Z; [| discriminate].
  intros [= <- _ _] sent. subst sent.
  unfold limit_price, get_bid, get_ask, company_of_search, first_bid,
    first_ask.
  cbn [bid ask minPriceIncrement].
  split; intros ->; split; reflexivity.
Qed.

Lemma get_info_by_figi_empty_side_witness :
  let gw := IdealBroker.gateway Example.search
              (fun _ => {| status_code := 200;
                           payload := Throttling.empty_book |}) [] in
  let c := company_of_search "AAA" (payload (Example.search "AAA"))
             Throttling.empty_book in
  bid c = {| price := 10000; quantity := 0 |} /\
  limit_price c buy = 10000 + (1 # 2).
Proof.
  intros gw c.
  exact (proj1 (get_info_by_figi_empty_side gw "AAA" (Example.broker [])
                  (Example.broker []) c
                  [ESearchByFigi "AAA"; EOrderbookGet "AAA" 1] eq_refl)
           eq_refl).
Defined.

(** X10.  [get_info_by_figi] only reads: it asks for the instrument and, when
    that answers 200, for its book, and makes no other call; it returns [None]
    exactly when the search does not answer 200, and then never asks for the
    book. *)
Theorem get_info_by_figi_reads_only
    {G} (gw : Gateway G) (f : string) (g : G) :
  let out := get_info_by_figi gw f g in
  let found := status_code (fst (market_search_by_figi_get gw f g)) in
  (trace_of out = [ESearchByFigi f] \/
   trace_of out = [ESearchByFigi f; EOrderbookGet f 1]) /\
  (result_of out = Ret None <-> found <> 200%Z) /\
  (found <> 200%Z -> trace_of out = [ESearchByFigi f]).
Proof.
  intros out found. subst out found.
  pose proof (get_info_by_figi_run gw f g) as H. cbv zeta in H. rewrite H.
  destruct (Z.eqb_spec
              (status_code (fst (market_search_by_figi_get gw f g))) 200)
    as [E | E].
  - cbn [trace_of result_of fst snd]. split; [now right |]. split.
    + split; [| tauto]. now destruct (_ =? 200)%Z.
    + tauto.
  - cbn [trace_of result_of fst snd]. split; [now left |]. tauto.
Qed.

Lemma get_info_by_figi_reads_only_witness :
  trace_of (get_info_by_figi (Throttling.service 0 Throttling.empty_book)
              "AAA" 0%nat) = [ESearchByFigi "AAA"].
Proof.
  refine (proj2 (proj2 (get_info_by_figi_reads_only
                          (Throttling.service 0 Throttling.empty_book)
                          "AAA" 0%nat)) _).
  discriminate.
Defined.

(** ** Scanning the instruments *)

Section Scanning.

Context {G : Type} (gw : Gateway G).

Lemma create_company_outcome (fuel : nat) (bond : MarketInstrument) :
  forall g,
    let out := create_company gw fuel bond g in
    (forall e, result_of out <> Raise e) /\
    Forall quote_or_sleep (trace_of out) /\
    (forall r, result_of out = Ret r ->
       (forall c, r = Some c -> figi c = mi_figi bond) /\
       exists n, (n < fuel)%nat /\
                 throttled gw (mi_figi bond) n g /\
                 trace_of out = attempts n (mi_figi bond)).
Proof.
  induction fuel as [| fuel IH]; intros g out; subst out.
  - cbn. split; [discriminate |]. split; [constructor | discriminate].
  - pose proof (create_company_attempt gw fuel bond g) as Hrun.
    cbv zeta in Hrun. rewrite Hrun. clear Hrun.
    destruct (Z.eqb_spec
                (status_code (fst (market_orderbook_get gw (mi_figi bond) 1 g)))
                200) as [E200 | E200].
    + cbn [result_of trace_of fst snd].
      split; [discriminate |]. split; [repeat constructor |].
      intros r [= <-]. split; [now intros c [= <-] |].
      exists 0%nat. repeat split. lia.
    + destruct (Z.eqb_spec
                  (status_code
                     (fst (market_orderbook_get gw (mi_figi bond) 1 g)))
                  429) as [E429 | E429].
      * specialize (IH (time_sleep gw 60
                          (snd (market_orderbook_get gw (mi_figi bond) 1 g)))).
        cbv zeta in IH. destruct IH as (Hnr & Hqs & Hret).
        unfold prepend. cbn [result_of trace_of fst snd].
        split; [exact Hnr |]. split.
        { apply Forall_app. split; [repeat constructor | exact Hqs]. }
        intros r Hr. destruct (Hret r Hr) as (Hfigi & n & Hn & Hth & Htr).
        split; [exact Hfigi |]. exists (S n).
        split; [lia |]. split; [now split |].
        cbn [attempts app]. now rewrite Htr.
      * cbn [result_of trace_of fst snd].
        split; [discriminate |]. split; [repeat constructor |].
        intros r [= <-]. split; [discriminate |].
        exists 0%nat. repeat split. lia.
Qed.

End Scanning.

(** X11.  [create_company] never lets an exception out, whatever the quote
    service answers, and its only calls are quote requests and sleeps. *)
Theorem create_company_never_raises
    {G} (gw : Gateway G) (fuel : nat) (bond : MarketInstrument) (g : G) :
  (forall e, result_of (create_company gw fuel bond g) <> Raise e) /\
  Forall quote_or_sleep (trace_of (create_company gw fuel bond g)).
Proof.
  destruct (create_company_outcome gw fuel bond g) as (H1 & H2 & _).
  now split.
Qed.

(** X12.  Whenever [create_company] returns, every attempt before the last
    was answered 429 and followed by one sleep of 60, and a valuation it
    returns carries the bond's figi. *)
Theorem create_company_returns_after_throttling
    {G} (gw : Gateway G) (fuel : nat) (bond : MarketInstrument) (g : G)
    (r : option CompanyData) :
  result_of (create_company gw fuel bond g) = Ret r ->
  (forall c, r = Some c -> figi c = mi_figi bond) /\
  exists n,
    (n < fuel)%nat /\
    throttled gw (mi_figi bond) n g /\
    trace_of (create_company gw fuel bond g) = attempts n (mi_figi bond).
Proof.
  intros H.
  destruct (create_company_outcome gw fuel bond g) as (_ & _ & H3).
  exact (H3 r H).
Qed.

Lemma create_company_returns_after_throttling_witness :
  let book := Example.quote 100 101 102 110 (1 # 2) in
  let bond := Example.instrument "AAA" (1 # 2) in
  exists n,
    (n < 5)%nat /\
    throttled (Throttling.service 2 book) "AAA" n 0%nat /\
    trace_of (create_company (Throttling.service 2 book) 5 bond 0%nat) =
    attempts n "AAA".
Proof.
  intros book bond.
  exact (proj2 (create_company_returns_after_throttling
                  (Throttling.service 2 book) 5 bond 0%nat
                  (Some (company_of_bond bond book)) eq_refl)).
Defined.

Section ParseStocks.

Context {G : Type} (gw : Gateway G).
Variable market_stocks_get : G -> Response (list MarketInstrument) * G.

Lemma parse_stocks_loop_outcome (fuel : nat) (n : Z)
    (all_stocks : list MarketInstrument) :
  forall (res : list CompanyData) (g : G),
    let out := parse_stocks_loop gw fuel n all_stocks res g in
    (forall e, result_of out <> Raise e) /\
    Forall quote_or_sleep (trace_of out) /\
    (forall r, result_of out = Ret r ->
       exists extra,
         r = res ++ extra /\
         (List.length extra <= List.length all_stocks)%nat /\
         ((Z.of_nat (List.length res) < n)%Z ->
          (Z.of_nat (List.length r) <= n)%Z) /\
         ((n <= Z.of_nat (List.length res))%Z -> extra = []) /\
         Forall (fun c => In (figi c) (map mi_figi all_stocks)) extra).
Proof.
  induction all_stocks as [| bond rest IH]; intros res g out; subst out.
  - cbn. split; [discriminate |]. split; [constructor |].
    intros r [= <-]. exists []. rewrite List.app_nil_r.
    repeat split; trivial; lia.
  - cbn [parse_stocks_loop].
    destruct (Z.geb_spec (Z.of_nat (List.length res)) n) as [Hge | Hlt].
    + cbn. split; [discriminate |]. split; [constructor |].
      intros r [= <-]. exists []. rewrite List.app_nil_r.
      repeat split; trivial; cbn; lia.
    + destruct (create_company_outcome gw fuel bond g) as (Hnr & Hqs & Hret).
      destruct (create_company gw fuel bond g) as [[rc g1] t1] eqn:E.
      cbn [result_of trace_of fst snd] in Hnr, Hqs, Hret.
      destruct rc as [tmp | e |].
      * rewrite (bind_ret _ _ _ _ _ _ E).
        destruct (Hret tmp eq_refl) as [Hfigi _].
        destruct tmp as [c |].
        -- destruct (IH (res ++ [c]) g1) as (Hnr' & Hqs' & Hret').
           unfold prepend. cbn [result_of trace_of fst snd].
           split; [exact Hnr' |].
           split; [apply Forall_app; now split |].
           intros r Hr.
           destruct (Hret' r Hr) as (extra & -> & Hlen & Hlim & Hfull & Hin).
           exists (c :: extra). rewrite <- List.app_assoc.
           split; [reflexivity |]. split; [cbn; lia |].
           rewrite List.length_app in Hlim, Hfull. cbn [List.length] in *.
           split; [| split; [lia |]].
           ++ intros _.
              destruct (Z_lt_le_dec (Z.of_nat (List.length res + 1)) n)
                as [H1 | H1].
              ** rewrite <- List.app_assoc in Hlim. now apply Hlim.
              ** rewrite (Hfull H1). rewrite List.length_app. cbn. lia.
           ++ constructor.
              ** left. symmetry. now apply Hfigi.
              ** eapply Forall_impl; [| exact Hin].
                 intros a Ha. now right.
        -- destruct (IH res g1) as (Hnr' & Hqs' & Hret').
           unfold prepend. cbn [result_of trace_of fst snd].
           split; [exact Hnr' |].
           split; [apply Forall_app; now split |].
           intros r Hr.
           destruct (Hret' r Hr) as (extra & -> & Hlen & Hlim & Hfull & Hin).
           exists extra. split; [reflexivity |]. split; [cbn; lia |].
           split; [exact Hlim |]. split; [exact Hfull |].
           eapply Forall_impl; [| exact Hin]. intros a Ha. now right.
      * now elim (Hnr e).
      * unfold bind. rewrite E. cbn.
        split; [discriminate |]. split; [exact Hqs | discriminate].
Qed.

Lemma parse_stocks_run (fuel : nat) (n : Z) (g : G) :
  let listed := market_stocks_get g in
  parse_stocks gw market_stocks_get fuel n g =
  if negb (status_code (fst listed) =? 200)%Z
  then (Ret None, snd listed, [])
  else
    (x <- parse_stocks_loop gw fuel
            (if (n =? -1)%Z
             then Z.of_nat (List.length (payload (fst listed)))
             else n)
            (payload (fst listed)) [] ;;
     ret (Some x)) (snd listed).
Proof.
  intros listed. unfold parse_stocks. unfold bind at 1. unfold consult.
  subst listed. destruct (market_stocks_get g) as [response g1].
  cbn [fst snd]. destruct (negb _); [reflexivity |].
  cbv zeta.
  match goal with
  | |- (let (_, _) := ?m in _) = _ => destruct m as [[r g2] t2]
  end.
  reflexivity.
Qed.

End ParseStocks.

(** X13.  The list that [parse_stocks] returns is no longer than the list of
    instruments, no longer than a non-negative [number_to_parse], and every
    valuation in it carries the figi of a listed instrument. *)
Theorem parse_stocks_bounded
    {G} (gw : Gateway G)
    (market_stocks_get : G -> Response (list MarketInstrument) * G)
    (fuel : nat) (n : Z) (g : G) (res : list CompanyData) :
  result_of (parse_stocks gw market_stocks_get fuel n g) = Ret (Some res) ->
  let listed := payload (fst (market_stocks_get g)) in
  (List.length res <= List.length listed)%nat /\
  ((0 <= n)%Z -> (Z.of_nat (List.length res) <= n)%Z) /\
  Forall (fun c => In (figi c) (map mi_figi listed)) res.
Proof.
  pose proof (parse_stocks_run gw market_stocks_get fuel n g) as Hrun.
  cbv zeta in Hrun. rewrite Hrun. clear Hrun.
  destruct (negb _); [discriminate |].
  set (n' := if (n =? -1)%Z then _ else n).
  destruct (parse_stocks_loop_outcome gw fuel n'
              (payload (fst (market_stocks_get g))) []
              (snd (market_stocks_get g))) as (_ & _ & Hret).
  unfold bind.
  destruct (parse_stocks_loop gw fuel n' _ [] _) as [[[r | e |] g1] t1];
    try discriminate.
  cbn. intros [= <-].
  destruct (Hret r eq_refl) as (extra & -> & Hlen & Hlim & Hfull & Hin).
  cbn [app] in *. split; [exact Hlen |]. split; [| exact Hin].
  intros Hn. cbn [List.length] in Hlim, Hfull.
  assert (En : n' = n).
  { subst n'. destruct (Z.eqb_spec n (-1)); [lia | reflexivity]. }
  rewrite En in *.
  destruct (Z_lt_le_dec 0 n) as [H | H]; [now apply Hlim |].
  rewrite (Hfull H). cbn. lia.
Qed.

Lemma parse_stocks_bounded_witness :
  let book := Example.quote 100 101 102 110 (1 # 2) in
  let listing (g : nat) :=
    ({| status_code := 200%Z;
        payload := [Example.instrument "AAA" (1 # 2);
                    Example.instrument "BBB" (1 # 2);
                    Example.instrument "CCC" (1 # 2)] |}, g) in
  let res := [company_of_bond (Example.instrument "AAA" (1 # 2)) book;
              company_of_bond (Example.instrument "BBB" (1 # 2)) book] in
  (List.length res <= 3)%nat /\
  ((0 <= 2)%Z -> (Z.of_nat (List.length res) <= 2)%Z) /\
  Forall (fun c => In (figi c) ["AAA"; "BBB"; "CCC"]%string) res.
Proof.
  intros book listing res.
  exact (parse_stocks_bounded (Throttling.service 1 book) listing 3 2 0%nat
           res eq_refl).
Defined.

(** X14.  With [number_to_parse] 0, or below -1, [parse_stocks] asks for no
    quote at all and returns the empty list. *)
Theorem parse_stocks_without_quota
    {G} (gw : Gateway G)
    (market_stocks_get : G -> Response (list MarketInstrument) * G)
    (fuel : nat) (n : Z) (g : G) :
  status_code (fst (market_stocks_get g)) = 200%Z ->
  n = 0%Z \/ (n < -1)%Z ->
  parse_stocks gw market_stocks_get fuel n g =
  (Ret (Some []), snd (market_stocks_get g), []).
Proof.
  intros H200 Hn.
  pose proof (parse_stocks_run gw market_stocks_get fuel n g) as Hrun.
  cbv zeta in Hrun. rewrite Hrun, H200. clear Hrun. cbn [Z.eqb Pos.eqb negb].
  assert (En : (n =? -1)%Z = false) by (apply Z.eqb_neq; lia).
  rewrite En.
  destruct (payload (fst (market_stocks_get g))) as [| bond rest];
    [reflexivity |].
  cbn [parse_stocks_loop List.length Z.of_nat].
  assert (Eg : (0 >=? n)%Z = true) by (apply Z.geb_le; lia).
  rewrite Eg. reflexivity.
Qed.

Lemma parse_stocks_without_quota_witness :
  let listing (g : nat) :=
    ({| status_code := 200%Z;
        payload := [Example.instrument "AAA" (1 # 2)] |}, g) in
  parse_stocks (Throttling.service 0 Throttling.empty_book) listing 3 (-2)
    0%nat = (Ret (Some []), 0%nat, []).
Proof.
  intros listing.
  refine (parse_stocks_without_quota
            (Throttling.service 0 Throttling.empty_book) listing 3 (-2) 0%nat
            eq_refl _).
  right. reflexivity.
Defined.

(** X15.  [parse_stocks] never lets an exception of a quote request out;
    when the list of instruments does not answer 200 it returns [None]
    without asking for a quote. *)
Theorem parse_stocks_never_raises
    {G} (gw : Gateway G)
    (market_stocks_get : G -> Response (list MarketInstrument) * G)
    (fuel : nat) (n : Z) (g : G) :
  let out := parse_stocks gw market_stocks_get fuel n g in
  (forall e, result_of out <> Raise e) /\
  (status_code (fst (market_stocks_get g)) <> 200%Z ->
   out = (Ret None, snd (market_stocks_get g), [])).
Proof.
  intros out. subst out.
  pose proof (parse_stocks_run gw market_stocks_get fuel n g) as Hrun.
  cbv zeta in Hrun. rewrite Hrun. clear Hrun.
  destruct (Z.eqb_spec (status_code (fst (market_stocks_get g))) 200)
    as [E | E]; cbn [negb].
  - set (n' := if (n =? -1)%Z then _ else n).
    destruct (parse_stocks_loop_outcome gw fuel n'
                (payload (fst (market_stocks_get g))) []
                (snd (market_stocks_get g))) as (Hnr & _).
    unfold bind.
    destruct (parse_stocks_loop gw fuel n' _ [] _) as [[[r | e |] g1] t1];
      cbn in *.
    + split; [discriminate | tauto].
    + now elim (Hnr e).
    + split; [discriminate | tauto].
  - cbn. split; [discriminate | reflexivity].
Qed.

Lemma parse_stocks_never_raises_witness :
  let listing (g : nat) :=
    ({| status_code := 503%Z; payload := [] |}, g) in
  parse_stocks (Throttling.service 0 Throttling.empty_book) listing 3 (-1)
    0%nat = (Ret None, 0%nat, []).
Proof.
  intros listing.
  refine (proj2 (parse_stocks_never_raises
                   (Throttling.service 0 Throttling.empty_book)
                   listing 3 (-1) 0%nat) _).
  discriminate.
Defined.

(** ** Screening and placement *)

Lemma fgt_false_le (x y z : float) :
  fgt x y = false -> y <= z -> fgt x z = false.
Proof.
  unfold fgt, flt. intros H Hle. apply negb_false_iff in H.
  apply negb_false_iff. apply Qle_bool_iff in H. apply Qle_bool_iff. lra.
Qed.

Lemma flt_false_le (x y z : float) :
  flt x y = false -> z <= y -> flt x z = false.
Proof.
  unfold flt. intros H Hle. apply negb_false_iff in H.
  apply negb_false_iff. apply Qle_bool_iff in H. apply Qle_bool_iff. lra.
Qed.

(** X16.  Relaxing the screen never turns an accepted valuation away: a
    valuation accepted under a cap, a minimum income and the traded-today
    requirement is accepted under any higher cap, any lower minimum and
    without the requirement. *)
Theorem is_valid_company_relaxed
    {G} (rate : float) (c : CompanyData) (changed changed' : bool)
    (min_income min_income' max_price max_price' : float) (g : G) :
  result_of (is_valid_company rate c changed min_income max_price g)
  = Ret true ->
  (changed' = true -> changed = true) ->
  min_income' <= min_income ->
  max_price <= max_price' ->
  result_of (is_valid_company rate c changed' min_income' max_price' g)
  = Ret true.
Proof.
  intros H Hch Hmin Hmax.
  pose proof (is_valid_company_run rate c changed min_income max_price g)
    as H1.
  pose proof (is_valid_company_run rate c changed' min_income' max_price' g)
    as H2.
  cbv zeta in H1, H2. rewrite H1 in H. rewrite H2. clear H1 H2.
  assert (Hg : forall v,
    result_of
      (if fgt v max_price then (Ret false, g, [])
       else match income_of c with
            | Ret income =>
                (Ret (negb (flt income min_income)
                      && negb (changed && negb (is_changed c))), g, [])
            | Raise e => (Raise e, g, [])
            | OutOfFuel => (OutOfFuel, g, [])
            end) = Ret true ->
    result_of
      (if fgt v max_price' then (Ret false, g, [] : list event)
       else match income_of c with
            | Ret income =>
                (Ret (negb (flt income min_income')
                      && negb (changed' && negb (is_changed c))), g, [])
            | Raise e => (Raise e, g, [])
            | OutOfFuel => (OutOfFuel, g, [])
            end) = Ret true).
  { intros v. destruct (fgt v max_price) eqn:Ev; [discriminate |].
    rewrite (fgt_false_le _ _ _ Ev Hmax).
    destruct (income_of c) as [inc | e |]; try discriminate.
    cbn [result_of fst]. intros [= Hok]. f_equal.
    apply andb_true_iff in Hok as [Hi Hc].
    apply negb_true_iff in Hi, Hc.
    rewrite (flt_false_le _ _ _ Hi Hmin). cbn [negb andb].
    apply negb_true_iff.
    destruct changed'; [| reflexivity].
    rewrite (Hch eq_refl) in Hc. exact Hc. }
  destruct (currency c); [| | discriminate].
  - destruct (last_price c) as [lp |]; [| discriminate].
    destruct (feq rate 0); [discriminate |]. now apply Hg.
  - destruct (last_price c) as [lp |]; [| discriminate]. now apply Hg.
Qed.

Lemma is_valid_company_relaxed_witness :
  result_of (is_valid_company 91 (Example.company "AAA") false (1 # 200) 2000
               (Example.broker [])) = Ret true.
Proof.
  refine (is_valid_company_relaxed 91 (Example.company "AAA") true false
            (1 # 100) (1 # 200) 1000 2000 (Example.broker [])
            eq_refl _ _ _).
  - discriminate.
  - discriminate.
  - discriminate.
Defined.

(** X17.  The screener rejects without evaluating the income, and so without
    raising even when the close price is missing, a valuation in any currency
    other than roubles and dollars and a dollar valuation priced above the
    cap. *)
Theorem is_valid_company_rejects_early
    {G} (rate : float) (c : CompanyData) (changed : bool)
    (min_income max_price : float) (g : G) :
  ((exists code, currency c = other_currency code) \/
   (exists lp, currency c = usd /\ last_price c = Some lp /\
               max_price < lp)) ->
  is_valid_company rate c changed min_income max_price g = (Ret false, g, []).
Proof.
  intros H.
  pose proof (is_valid_company_run rate c changed min_income max_price g)
    as Hrun.
  cbv zeta in Hrun. rewrite Hrun. clear Hrun.
  destruct H as [[code ->] | (lp & -> & -> & Hlt)]; [reflexivity |].
  assert (E : fgt lp max_price = true).
  { unfold fgt, flt. apply negb_true_iff.
    destruct (Qle_bool lp max_price) eqn:E; [| reflexivity].
    apply Qle_bool_iff in E. lra. }
  now rewrite E.
Qed.

Lemma is_valid_company_rejects_early_witness :
  let c := {| figi := "EEE"; ticker := "EEE";
              ask := {| price := 121; quantity := 1 |};
              bid := {| price := 119; quantity := 1 |};
              currency := usd;
              last_price := Some 120;
              minPriceIncrement := 1;
              close_price := None |} in
  is_valid_company 91 c false (1 # 100) 100 (Example.broker []) =
  (Ret false, Example.broker [], []).
Proof.
  intros c.
  refine (is_valid_company_rejects_early 91 c false (1 # 100) 100
            (Example.broker []) _).
  right. exists 120. repeat split.
Defined.

Lemma is_valid_company_pure {G} (rate : float) (c : CompanyData)
    (changed : bool) (min_income max_price : float) (g : G) :
  is_valid_company rate c changed min_income max_price g =
  (result_of (is_valid_company rate c changed min_income max_price g), g, []).
Proof.
  pose proof (is_valid_company_run rate c changed min_income max_price g)
    as Hrun.
  cbv zeta in Hrun. rewrite Hrun. clear Hrun.
  assert (Hg : forall v,
    (if fgt v max_price then (Ret false, g, [] : list event)
     else match income_of c with
          | Ret income =>
              (Ret (negb (flt income min_income)
                    && negb (changed && negb (is_changed c))), g, [])
          | Raise e => (Raise e, g, [])
          | OutOfFuel => (OutOfFuel, g, [])
          end) =
    (result_of
       (if fgt v max_price then (Ret false, g, [] : list event)
        else match income_of c with
             | Ret income =>
                 (Ret (negb (flt income min_income)
                       && negb (changed && negb (is_changed c))), g, [])
             | Raise e => (Raise e, g, [])
             | OutOfFuel => (OutOfFuel, g, [])
             end), g, [])).
  { intros v. destruct (fgt v max_price); [reflexivity |].
    now destruct (income_of c). }
  destruct (currency c); try reflexivity.
  - destruct (last_price c); [| reflexivity].
    destruct (feq rate 0); [reflexivity | apply Hg].
  - destruct (last_price c); [apply Hg | reflexivity].
Qed.

Lemma company_str_run {G} (c : CompanyData) (g : G) :
  company_str c g =
  (match income_of c with
   | Ret _ => Ret tt
   | Raise e => Raise e
   | OutOfFuel => OutOfFuel
   end, g, []).
Proof.
  unfold company_str, get_delta, income_of.
  destruct (close_price c) as [cp |] eqn:Ecp; [| reflexivity].
  cbn [as_float]. rewrite bind_assoc, !bind_ret_l.
  destruct (last_price c) as [lp |] eqn:Elp; [| reflexivity].
  cbn [as_float]. rewrite bind_ret_l, bind_get_income.
  unfold income_of. rewrite Ecp, Elp.
  now destruct (feq lp 0).
Qed.

Section BuyCompanies.

Context {G : Type} (gw : Gateway G).
Variable rate : float.
Variable input : G -> string * G.

(** One turn of the placement loop. *)
Lemma buy_companies_cons (c : CompanyData) (rest : list CompanyData)
    (changed : bool) (min_ratio max_price : float) (g : G) :
  buy_companies gw rate input (c :: rest) changed min_ratio max_price g =
  match result_of (is_valid_company rate c changed min_ratio max_price g) with
  | Ret true =>
      match income_of c with
      | Ret _ =>
          let res := fst (input g) in
          let g1 := snd (input g) in
          if String.eqb res "Y" || String.eqb res "y" then
            let body := limit_order c buy 1 in
            let post := orders_limit_order_post gw (figi c) body g1 in
            if (status_code (fst post) =? 200)%Z then
              prepend [ELimitOrderPost (figi c) body]
                (buy_companies gw rate input rest changed min_ratio max_price
                   (snd post))
            else (Ret tt, snd post, [ELimitOrderPost (figi c) body])
          else if String.eqb res "exit" then (Ret tt, g1, [])
          else buy_companies gw rate input rest changed min_ratio max_price g1
      | Raise e => (Raise e, g, [])
      | OutOfFuel => (OutOfFuel, g, [])
      end
  | Ret false =>
      buy_companies gw rate input rest changed min_ratio max_price g
  | Raise e => (Raise e, g, [])
  | OutOfFuel => (OutOfFuel, g, [])
  end.
Proof.
  cbn [buy_companies]. unfold bind at 1.
  rewrite is_valid_company_pure.
  destruct (result_of (is_valid_company rate c changed min_ratio max_price g))
    as [[|] | e |]; try reflexivity.
  - unfold bind at 1. rewrite company_str_run.
    destruct (income_of c) as [inc | e |] eqn:Einc; try reflexivity.
    unfold bind at 1. unfold consult.
    destruct (input g) as [res g1]. cbn [fst snd].
    destruct (String.eqb res "Y" || String.eqb res "y").
    + unfold bind at 1. rewrite create_limit_order_run, Einc. cbv zeta.
      destruct (status_code _ =? 200)%Z.
      * unfold prepend.
        destruct (buy_companies gw rate input rest changed min_ratio max_price
                    _) as [[r g2] t2].
        reflexivity.
      * reflexivity.
    + destruct (String.eqb res "exit"); [reflexivity |].
      destruct (buy_companies gw rate input rest changed min_ratio max_price
                  g1) as [[r g2] t2].
      reflexivity.
  - destruct (buy_companies gw rate input rest changed min_ratio max_price g)
      as [[r g2] t2].
    reflexivity.
Qed.

End BuyCompanies.

(** X18.  Whatever the operator answers and the gateway does, every order
    that [buy_companies] submits is a buy of one lot. *)
Theorem buy_companies_buys_one_lot
    {G} (gw : Gateway G) (rate : float) (input : G -> string * G)
    (companies_list : list CompanyData) (changed : bool)
    (min_ratio max_price : float) (g : G) :
  Forall buys_one_lot
    (trace_of (buy_companies gw rate input companies_list changed min_ratio
                 max_price g)).
Proof.
  revert g. induction companies_list as [| c rest IH]; intros g;
    [constructor |].
  rewrite buy_companies_cons.
  destruct (result_of (is_valid_company rate c changed min_ratio max_price g))
    as [[|] | e |]; try constructor; [| apply IH].
  destruct (income_of c); try constructor. cbv zeta.
  destruct (_ || _).
  - destruct (_ =? 200)%Z.
    + unfold prepend. cbn [trace_of snd].
      apply Forall_app. split; [| apply IH].
      repeat constructor.
    + repeat constructor.
  - destruct (String.eqb _ "exit"); [constructor | apply IH].
Qed.

(** X19.  Without a confirmation nothing is bought: if the operator never
    answers [Y] or [y], [buy_companies] makes no call at all. *)
Theorem buy_companies_needs_confirmation
    {G} (gw : Gateway G) (rate : float) (input : G -> string * G)
    (companies_list : list CompanyData) (changed : bool)
    (min_ratio max_price : float) (g : G) :
  (forall g', fst (input g') <> "Y"%string /\ fst (input g') <> "y"%string) ->
  trace_of (buy_companies gw rate input companies_list changed min_ratio
              max_price g) = [].
Proof.
  intros Hno. revert g.
  induction companies_list as [| c rest IH]; intros g; [reflexivity |].
  rewrite buy_companies_cons.
  destruct (result_of (is_valid_company rate c changed min_ratio max_price g))
    as [[|] | e |]; try reflexivity; [| apply IH].
  destruct (income_of c); try reflexivity. cbv zeta.
  destruct (Hno g) as [HY Hy].
  apply String.eqb_neq in HY, Hy. rewrite HY, Hy. cbn [orb].
  destruct (String.eqb _ "exit"); [reflexivity | apply IH].
Qed.

Lemma buy_companies_needs_confirmation_witness :
  trace_of (buy_companies (Example.gw []) 91 (console "n")
              [Example.company "AAA"; Example.company "BBB"] false (1 # 100)
              1000 (Example.broker [])) = [].
Proof.
  refine (buy_companies_needs_confirmation (Example.gw []) 91 (console "n")
            [Example.company "AAA"; Example.company "BBB"] false (1 # 100)
            1000 (Example.broker []) _).
  intros g'. split; discriminate.
Defined.

(** X20.  The batch stops at the first order the gateway does not accept:
    when no order is answered 200, [buy_companies] submits at most one. *)
Theorem buy_companies_stops_at_rejection
    {G} (gw : Gateway G) (rate : float) (input : G -> string * G)
    (companies_list : list CompanyData) (changed : bool)
    (min_ratio max_price : float) (g : G) :
  (forall f body g',
     status_code (fst (orders_limit_order_post gw f body g')) <> 200%Z) ->
  (List.length
     (posts (trace_of (buy_companies gw rate input companies_list changed
                         min_ratio max_price g))) <= 1)%nat.
Proof.
  intros Hrej. revert g.
  induction companies_list as [| c rest IH]; intros g; [cbn; lia |].
  rewrite buy_companies_cons.
  destruct (result_of (is_valid_company rate c changed min_ratio max_price g))
    as [[|] | e |]; try (cbn; lia); [| apply IH].
  destruct (income_of c); try (cbn; lia). cbv zeta.
  destruct (_ || _).
  - pose proof (Hrej (figi c) (limit_order c buy 1) (snd (input g))) as H.
    apply Z.eqb_neq in H. rewrite H. cbn. lia.
  - destruct (String.eqb _ "exit"); [cbn; lia | apply IH].
Qed.

Lemma buy_companies_stops_at_rejection_witness :
  let refusing : Gateway nat :=
    {| market_orderbook_get :=
         market_orderbook_get (Throttling.service 0 Throttling.empty_book);
       market_search_by_figi_get :=
         market_search_by_figi_get
           (Throttling.service 0 Throttling.empty_book);
       orders_get := fun n => ({| status_code := 200; payload := [] |}, n);
       orders_cancel_post := fun _ n =>
         ({| status_code := 200; payload := tt |}, n);
       orders_limit_order_post := fun _ _ n =>
         ({| status_code := 500; payload := tt |}, n);
       operations_get := fun _ _ n =>
         ({| status_code := 200; payload := [] |}, n);
       time_sleep := fun _ n => n;
       datetime_now := fun _ => 0%Z |} in
  (List.length
     (posts (trace_of (buy_companies refusing 91%Q (console "y")
                         [Example.company "AAA"; Example.company "BBB"]
                         false (1 # 100)%Q 1000%Q 0%nat))) <= 1)%nat.
Proof.
  intros refusing.
  refine (buy_companies_stops_at_rejection refusing 91 (console "y")
            [Example.company "AAA"; Example.company "BBB"] false (1 # 100)
            1000 0%nat _).
  intros f body g'. discriminate.
Defined.

(** X21.  A candidate quoted in dollars with last price zero, under a cap
    that is not negative, makes [buy_companies] raise [ZeroDivisionError]
    before any call: the candidates after it are never offered. *)
Theorem buy_companies_zero_last_price_aborts
    {G} (gw : Gateway G) (rate : float) (input : G -> string * G)
    (c : CompanyData) (rest : list CompanyData) (changed : bool)
    (min_ratio max_price cp : float) (g : G) :
  currency c = usd ->
  last_price c = Some 0 ->
  close_price c = Some cp ->
  0 <= max_price ->
  buy_companies gw rate input (c :: rest) changed min_ratio max_price g =
  (Raise ZeroDivisionError, g, []).
Proof.
  intros Hcur Hlp Hcp Hmax. rewrite buy_companies_cons.
  pose proof (is_valid_company_run rate c changed min_ratio max_price g)
    as Hrun.
  cbv zeta in Hrun. rewrite Hrun, Hcur, Hlp. clear Hrun.
  assert (E : fgt 0 max_price = false).
  { unfold fgt, flt. apply negb_false_iff. now apply Qle_bool_iff. }
  rewrite E. unfold income_of. rewrite Hcp, Hlp. reflexivity.
Qed.

Lemma buy_companies_zero_last_price_aborts_witness :
  buy_companies (Example.gw []) 91 (console "y")
    [Example.company "ZERO"; Example.company "AAA"] false (1 # 100) 1000
    (Example.broker []) =
  (Raise ZeroDivisionError, Example.broker [], []).
Proof.
  refine (buy_companies_zero_last_price_aborts (Example.gw []) 91
            (console "y") (Example.company "ZERO") [Example.company "AAA"]
            false (1 # 100) 1000 110 (Example.broker [])
            eq_refl eq_refl eq_refl _).
  discriminate.
Defined.

(** ** Reconciliation and settlement: failures and edges *)

Lemma check_done_orders_run {G} (gw : Gateway G) (from_time : Z) (g : G) :
  let listed := operations_get gw from_time (datetime_now gw g) g in
  check_done_orders gw from_time g =
  if (status_code (fst listed) =? 200)%Z then
    prepend [EOperationsGet from_time (datetime_now gw g)]
      (for_each (payload (fst listed)) (check_done_orders_body gw)
         (snd listed))
  else (Raise (Exception_str "Can't get operations"), snd listed,
        [EOperationsGet from_time (datetime_now gw g)]).
Proof.
  intros listed. unfold check_done_orders.
  rewrite (bind_pure _ _ _ _ (eq_refl : read (datetime_now gw) g = _)).
  rewrite bind_call. fold listed.
  destruct (_ =? 200)%Z; reflexivity.
Qed.

(** X22.  When the search for an open order's instrument does not answer
    200, [get_info_by_figi] returns [None] and the reconciliation pass raises
    [AttributeError] on it: nothing is cancelled and the remaining orders are
    not looked at. *)
Theorem update_active_orders_search_failure_raises
    {G} (gw : Gateway G) (min_ratio : float) (g : G) (o : Order)
    (rest : list Order) :
  let listed := orders_get gw g in
  let found := market_search_by_figi_get gw (order_figi o) (snd listed) in
  status_code (fst listed) = 200%Z ->
  payload (fst listed) = o :: rest ->
  status_code (fst found) <> 200%Z ->
  update_active_orders gw min_ratio g =
  (Raise AttributeError, snd found,
   [EOrdersGet; ESearchByFigi (order_figi o)]).
Proof.
  intros listed found Hl Hp Hf.
  rewrite update_active_orders_run. fold listed. rewrite Hl, Hp.
  cbn [Z.eqb Pos.eqb for_each].
  pose proof (get_info_by_figi_run gw (order_figi o) (snd listed)) as H.
  cbv zeta in H. fold found in H.
  apply Z.eqb_neq in Hf. rewrite Hf in H.
  rewrite (bind_raise _ _ _ _ _ _ (update_body_none gw _ _ _ _ _ H)).
  reflexivity.
Qed.

Lemma update_active_orders_search_failure_raises_witness :
  let o := Example.order "o1" "AAA" buy 99 4 in
  let unknown :=
    IdealBroker.gateway
      (fun f => {| status_code := 404;
                   payload := Example.instrument f 0 |})
      Example.book [] in
  update_active_orders unknown (1 # 100) (Example.broker [o]) =
  (Raise AttributeError, Example.broker [o],
   [EOrdersGet; ESearchByFigi "AAA"]).
Proof.
  intros o unknown.
  refine (update_active_orders_search_failure_raises unknown (1 # 100)
            (Example.broker [o]) o [] eq_refl eq_refl _).
  discriminate.
Defined.

(** X23.  An order that a reconciliation turn leaves alone rests within a
    thousandth of the best price of its side. *)
Theorem untouched_order_within_thousandth
    {G} (gw : Gateway G) (min_ratio : float) (o : Order) (g g1 : G)
    (c : CompanyData) (t1 : list event) (inc : float) :
  get_info_by_figi gw (order_figi o) g = (Ret (Some c), g1, t1) ->
  income_of c = Ret inc ->
  actions (trace_of (update_active_orders_body gw min_ratio o g)) = [] ->
  Qabs (best_price c (order_operation o) - order_price o) <= 1 # 1000.
Proof.
  intros H Hinc.
  rewrite (update_body_run gw min_ratio o g g1 c t1 H), Hinc.
  unfold drifted.
  destruct (float_eq (best_price c (order_operation o)) (order_price o))
    eqn:E; cbn [negb].
  - intros _. now apply float_eq_close.
  - cbv zeta.
    destruct (threshold_cleared inc min_ratio (order_operation o));
      cbn [trace_of snd]; unfold actions; rewrite filter_app; cbn;
      intros Ha; apply app_eq_nil in Ha as [_ Ha]; discriminate.
Qed.

Lemma untouched_order_within_thousandth_witness :
  Qabs (best_price (Example.company "AAA") buy - (1000004 # 10000))
  <= 1 # 1000.
Proof.
  exact (untouched_order_within_thousandth (Example.gw []) (1 # 100)
           (Example.order "o1" "AAA" buy (1000004 # 10000) 4)
           (Example.broker []) (Example.broker []) (Example.company "AAA")
           [ESearchByFigi "AAA"; EOrderbookGet "AAA" 1] (49 # 500)
           eq_refl eq_refl eq_refl).
Defined.

Section Traces.

Context {G : Type}.

Lemma bind_trace_cases {A B} (m : M G A) (f : A -> M G B) (g : G) :
  trace_of (bind m f g) = trace_of (m g) \/
  exists a g1, trace_of (bind m f g) = trace_of (m g) ++ trace_of (f a g1).
Proof.
  unfold bind. destruct (m g) as [[[a | e |] g1] t1]; auto.
  right. exists a, g1. now destruct (f a g1) as [[r g2] t2].
Qed.

(** A property of traces that holds of the empty trace and of two traces put
    end to end holds of a loop as soon as it holds of every turn. *)
Lemma for_each_trace {A} (P : list event -> Prop) (body : A -> M G unit) :
  P [] ->
  (forall t1 t2, P t1 -> P t2 -> P (t1 ++ t2)) ->
  (forall x g, P (trace_of (body x g))) ->
  forall xs g, P (trace_of (for_each xs body g)).
Proof.
  intros Hnil Happ Hbody. induction xs as [| x rest IH]; intros g;
    [exact Hnil |].
  cbn [for_each].
  destruct (bind_trace_cases (body x) (fun _ => for_each rest body) g)
    as [-> | (a & g1 & ->)]; auto.
Qed.

End Traces.

Lemma posts_of_actions (t : list event) : posts (actions t) = posts t.
Proof.
  unfold posts, actions. induction t as [| ev t IH]; [reflexivity |].
  destruct ev; cbn; now rewrite ?IH.
Qed.

Lemma cancels_of_actions (t : list event) : cancels (actions t) = cancels t.
Proof.
  unfold cancels, actions. induction t as [| ev t IH]; [reflexivity |].
  destruct ev; cbn; now rewrite ?IH.
Qed.

(** The actions of one reconciliation turn, whatever the gateway answers. *)
Lemma update_body_actions {G} (gw : Gateway G) (min_ratio : float)
    (o : Order) (g : G) :
  let a := actions (trace_of (update_active_orders_body gw min_ratio o g)) in
  a = [] \/ a = [ECancel (order_id o)] \/
  exists body, a = [ECancel (order_id o); ELimitOrderPost (order_figi o) body].
Proof.
  intros a. subst a.
  pose proof (get_info_by_figi_no_action gw (order_figi o) g) as Hq.
  destruct (get_info_by_figi gw (order_figi o) g) as [[r g1] t1] eqn:E.
  cbn [trace_of snd] in Hq.
  destruct r as [[c |] | e |].
  - pose proof (get_info_by_figi_figi gw _ _ _ _ _ E) as Hf.
    rewrite (update_body_run gw min_ratio o g g1 c t1 E).
    destruct (drifted c o); [| now left].
    destruct (income_of c) as [inc | e |]; try now left.
    cbv zeta. rewrite Hf.
    destruct (threshold_cleared inc min_ratio (order_operation o));
      cbn [trace_of snd]; unfold actions in *; rewrite filter_app, Hq; cbn.
    + right. right. eexists. reflexivity.
    + right. now left.
  - rewrite (update_body_none gw min_ratio o g g1 t1 E). now left.
  - rewrite (update_body_raise gw min_ratio o g g1 e t1 E). now left.
  - unfold update_active_orders_body, bind. rewrite E. now left.
Qed.


(** X25.  A settlement pass that finds no completed trade makes no call
    besides the request for the operations. *)
Theorem check_done_orders_nothing_done
    {G} (gw : Gateway G) (from_time : Z) (g : G) :
  let listed := operations_get gw from_time (datetime_now gw g) g in
  status_code (fst listed) = 200%Z ->
  (forall op, In op (payload (fst listed)) -> op_status op <> done) ->
  check_done_orders gw from_time g =
  (Ret tt, snd listed, [EOperationsGet from_time (datetime_now gw g)]).
Proof.
  intros listed H200 Hnone.
  pose proof (check_done_orders_run gw from_time g) as Hrun.
  cbv zeta in Hrun. fold listed in Hrun. rewrite Hrun, H200. clear Hrun.
  cbn [Z.eqb Pos.eqb].
  assert (Hloop : forall ops g',
            (forall op, In op ops -> op_status op <> done) ->
            for_each ops (check_done_orders_body gw) g' = (Ret tt, g', [])).
  { induction ops as [| op ops IH]; intros g' Hn; [reflexivity |].
    cbn [for_each].
    rewrite (bind_pure _ _ _ _
               (check_done_body_skip gw op g' (Hn op (or_introl eq_refl)))).
    apply IH. intros op' Hin. apply Hn. now right. }
  now rewrite (Hloop _ _ Hnone).
Qed.

Lemma check_done_orders_nothing_done_witness :
  let trades := [Example.trade "AAA" progress buy;
                 Example.trade "BBB" decline sell] in
  check_done_orders (Example.gw trades) 5 (Example.broker []) =
  (Ret tt, Example.broker [], [EOperationsGet 5 0]).
Proof.
  intros trades.
  refine (check_done_orders_nothing_done (Example.gw trades) 5
            (Example.broker []) eq_refl _).
  intros op [<- | [<- | []]]; discriminate.
Defined.

(** ** The update loop *)

Lemma update_loop_round {G} (gw : Gateway G) (fuel : nat) (min_ratio : float)
    (last_update : Z) (g : G) :
  update_loop gw (S fuel) min_ratio last_update g =
  (check_done_orders gw last_update ;;
   update_active_orders gw min_ratio ;;
   last_update' <- read (datetime_now gw) ;;
   call (ESleep 20) (fun g => (tt, time_sleep gw 20 g)) ;;
   update_loop gw fuel min_ratio last_update') g.
Proof. reflexivity. Qed.

(** X26.  In a round of the update loop a failing request for the operations
    raises before the reconciliation pass is started, and, after a settlement
    pass with nothing to answer, a failing request for the open orders raises
    before the loop sleeps. *)
Theorem update_loop_list_failure
    {G} (gw : Gateway G) (fuel : nat) (min_ratio : float) (last_update : Z)
    (g : G) :
  let now := datetime_now gw g in
  let listed := operations_get gw last_update now g in
  let opened := orders_get gw (snd listed) in
  (status_code (fst listed) <> 200%Z ->
   update_loop gw (S fuel) min_ratio last_update g =
   (Raise (Exception_str "Can't get operations"), snd listed,
    [EOperationsGet last_update now])) /\
  (status_code (fst listed) = 200%Z ->
   payload (fst listed) = [] ->
   status_code (fst opened) <> 200%Z ->
   update_loop gw (S fuel) min_ratio last_update g =
   (Raise (Exception_str "can't update orders"), snd opened,
    [EOperationsGet last_update now; EOrdersGet])).
Proof.
  intros now listed opened.
  pose proof (check_done_orders_run gw last_update g) as Hrun.
  cbv zeta in Hrun. fold now in Hrun. fold listed in Hrun.
  rewrite update_loop_round. split.
  - intros H. apply Z.eqb_neq in H. rewrite H in Hrun.
    now rewrite (bind_raise _ _ _ _ _ _ Hrun).
  - intros H200 Hnil Hfail. rewrite H200, Hnil in Hrun.
    cbn [Z.eqb Pos.eqb for_each] in Hrun.
    rewrite (bind_ret _ _ _ _ _ _ Hrun).
    assert (Hup : update_active_orders gw min_ratio (snd listed) =
                  (Raise (Exception_str "can't update orders"), snd opened,
                   [EOrdersGet])).
    { rewrite update_active_orders_run. fold opened.
      apply Z.eqb_neq in Hfail. now rewrite Hfail. }
    now rewrite (bind_raise _ _ _ _ _ _ Hup).
Qed.

Lemma update_loop_list_failure_witness :
  let failing (ops orders : Z) : Gateway nat :=
    {| market_orderbook_get :=
         market_orderbook_get (Throttling.service 0 Throttling.empty_book);
       market_search_by_figi_get :=
         market_search_by_figi_get
           (Throttling.service 0 Throttling.empty_book);
       orders_get := fun n => ({| status_code := orders; payload := [] |}, n);
       orders_cancel_post := fun _ n =>
         ({| status_code := 200; payload := tt |}, n);
       orders_limit_order_post := fun _ _ n =>
         ({| status_code := 200; payload := tt |}, n);
       operations_get := fun _ _ n =>
         ({| status_code := ops; payload := [] |}, n);
       time_sleep := fun _ n => n;
       datetime_now := fun _ => 7%Z |} in
  update_loop (failing 401%Z 200%Z) 2 (1 # 100) 3 0%nat =
  (Raise (Exception_str "Can't get operations"), 0%nat,
   [EOperationsGet 3 7]) /\
  update_loop (failing 200%Z 401%Z) 2 (1 # 100) 3 0%nat =
  (Raise (Exception_str "can't update orders"), 0%nat,
   [EOperationsGet 3 7; EOrdersGet]).
Proof.
  intros failing. split.
  - refine (proj1 (update_loop_list_failure (failing 401%Z 200%Z) 1 (1 # 100)
                     3 0%nat) _).
    discriminate.
  - refine (proj2 (update_loop_list_failure (failing 200%Z 401%Z) 1 (1 # 100)
                     3 0%nat) eq_refl eq_refl _).
    discriminate.
Defined.

(** X27.  With no completed trade and no open order, every round of the
    update loop asks for the operations since the clock reading of the round
    before, asks for the open orders and sleeps 20: [fuel] rounds make [fuel]
    sleeps of 20 and three calls each. *)
Theorem update_loop_idle_rounds
    {G} (gw : Gateway G) (fuel : nat) (min_ratio : float) (last_update : Z)
    (g : G) :
  (forall g' from_time to_time,
     fst (operations_get gw from_time to_time g') =
     {| status_code := 200; payload := [] |}) ->
  (forall g', fst (orders_get gw g') =
              {| status_code := 200; payload := [] |}) ->
  let out := update_loop gw fuel min_ratio last_update g in
  result_of out = OutOfFuel /\
  sleeps (trace_of out) = repeat (ESleep 20) fuel /\
  List.length (trace_of out) = (3 * fuel)%nat.
Proof.
  intros Hops Hord. revert last_update g.
  induction fuel as [| fuel IH]; intros last_update g out; subst out;
    [now repeat split |].
  rewrite update_loop_round.
  pose proof (check_done_orders_run gw last_update g) as Hrun.
  cbv zeta in Hrun. rewrite Hops in Hrun.
  cbn [status_code payload Z.eqb Pos.eqb for_each] in Hrun.
  rewrite (bind_ret _ _ _ _ _ _ Hrun). clear Hrun.
  set (g1 := snd (operations_get gw last_update (datetime_now gw g) g)).
  pose proof (update_active_orders_run gw min_ratio g1) as Hup.
  rewrite Hord in Hup.
  cbn [status_code payload Z.eqb Pos.eqb for_each] in Hup.
  rewrite (bind_ret _ _ _ _ _ _ Hup). clear Hup.
  set (g2 := snd (orders_get gw g1)).
  rewrite (bind_pure _ _ _ _ (eq_refl : read (datetime_now gw) g2 = _)).
  rewrite bind_call. cbn [fst snd].
  destruct (IH (datetime_now gw g2) (time_sleep gw 20 g2))
    as (Hr & Hs & Hl).
  unfold prepend, ret. cbn [result_of trace_of fst snd app].
  split; [exact Hr |]. split.
  - unfold sleeps in *. cbn [filter is_sleep repeat]. now rewrite Hs.
  - cbn [List.length]. rewrite Hl. lia.
Qed.

Lemma update_loop_idle_rounds_witness :
  let out := update_loop (Throttling.service 0 Throttling.empty_book) 2
               (1 # 100) 0 0%nat in
  result_of out = OutOfFuel /\
  sleeps (trace_of out) = [ESleep 20; ESleep 20] /\
  List.length (trace_of out) = 6%nat.
Proof.
  exact (update_loop_idle_rounds (Throttling.service 0 Throttling.empty_book)
           2 (1 # 100) 0 0%nat (fun _ _ _ => eq_refl) (fun _ => eq_refl)).
Defined.
(** * Properties of the code over binary64 floats *)

Module B64Properties.

Import PrimFloat.
#[local] Set Warnings "-inexact-float".
Import B64.
Local Open Scope b64_scope.

Section Running64.

Context {G : Type}.

Lemma bind_ret_b64 {A B} (m : M G A) (f : A -> M G B) g a g1 t1 :
  m g = (Ret a, g1, t1) -> bind m f g = prepend t1 (f a g1).
Proof.
  intros H. unfold bind, prepend. rewrite H.
  destruct (f a g1) as [[r g2] t2]. reflexivity.
Qed.

Lemma prepend_nil_b64 {A} (o : Result A * G * list event) : prepend [] o = o.
Proof. now destruct o as [[r g] t]. Qed.

Lemma bind_pure_b64 {A B} (m : M G A) (f : A -> M G B) g a :
  m g = (Ret a, g, []) -> bind m f g = f a g.
Proof.
  intros H. rewrite (bind_ret_b64 _ _ _ _ _ _ H). apply prepend_nil_b64.
Qed.

Lemma bind_ret_l_b64 {A B} (a : A) (f : A -> M G B) g :
  bind (ret a) f g = f a g.
Proof. now apply bind_pure_b64. Qed.

Lemma bind_assoc_b64 {A B C} (m : M G A) (f : A -> M G B) (k : B -> M G C) g :
  bind (bind m f) k g = bind m (fun x => bind (f x) k) g.
Proof.
  unfold bind. destruct (m g) as [[[a | e |] g1] t1]; trivial.
  destruct (f a g1) as [[[b | e |] g2] t2]; trivial.
  destruct (k b g2) as [[r g3] t3]. now rewrite List.app_assoc.
Qed.

Lemma bind_call_b64 {A B} ev (h : G -> A * G) (f : A -> M G B) g :
  bind (call ev h) f g = prepend [ev] (f (fst (h g)) (snd (h g))).
Proof.
  apply bind_ret_b64. unfold call. now destruct (h g).
Qed.

End Running64.

Section Facts64.

Context {G : Type} (gw : Gateway G).

Lemma get_income_run_b64 (c : CompanyData) (g : G) :
  get_income c g = (income_of c, g, []).
Proof.
  unfold get_income, get_delta, income_of, as_float, fdiv, bind, ret, raise.
  destruct (close_price c) as [cp |]; [| reflexivity].
  destruct (last_price c) as [lp |]; [| reflexivity].
  destruct (feq lp zero); reflexivity.
Qed.

Lemma get_price_run_b64 (f : string) (g : G) :
  get_price gw f g =
  (if (status_code (fst (market_orderbook_get gw f 1 g)) =? 200)%Z
   then Ret (fill_empty_sides (payload (fst (market_orderbook_get gw f 1 g))))
   else Raise (Exception_int
                 (status_code (fst (market_orderbook_get gw f 1 g)))),
   snd (market_orderbook_get gw f 1 g),
   [EOrderbookGet f 1]).
Proof.
  unfold get_price, bind, call, ret, raise.
  destruct (market_orderbook_get gw f 1 g) as [info g1]; simpl.
  destruct (status_code info =? 200)%Z; reflexivity.
Qed.

Lemma index0_asks_b64 (book : Orderbook) (g : G) :
  index0 (asks (fill_empty_sides book)) g = (Ret (first_ask book), g, []).
Proof.
  unfold fill_empty_sides, first_ask; simpl.
  destruct (asks book); reflexivity.
Qed.

Lemma index0_bids_b64 (book : Orderbook) (g : G) :
  index0 (bids (fill_empty_sides book)) g = (Ret (first_bid book), g, []).
Proof.
  unfold fill_empty_sides, first_bid; simpl.
  destruct (bids book); reflexivity.
Qed.

Lemma get_info_by_figi_run_b64 (f : string) (g : G) :
  let search := market_search_by_figi_get gw f g in
  let quote := market_orderbook_get gw f 1 (snd search) in
  get_info_by_figi gw f g =
  if (status_code (fst search) =? 200)%Z then
    (if (status_code (fst quote) =? 200)%Z
     then Ret (Some (company_of_search f (payload (fst search))
                                       (payload (fst quote))))
     else Raise (Exception_int (status_code (fst quote))),
     snd quote, [ESearchByFigi f; EOrderbookGet f 1])
  else (Ret None, snd search, [ESearchByFigi f]).
Proof.
  intros search quote. unfold get_info_by_figi.
  unfold bind at 1. unfold call at 1. fold search.
  destruct search as [response g1] eqn:Hs. simpl fst; simpl snd.
  destruct (status_code response =? 200)%Z; [| reflexivity].
  unfold bind at 1. rewrite get_price_run_b64. subst quote. simpl snd.
  destruct (status_code (fst (market_orderbook_get gw f 1 g1)) =? 200)%Z;
    [| reflexivity].
  rewrite (bind_pure_b64 _ _ _ _ (index0_asks_b64 _ _)).
  rewrite (bind_pure_b64 _ _ _ _ (index0_bids_b64 _ _)).
  reflexivity.
Qed.

Lemma get_info_by_figi_no_action_b64 (f : string) (g : G) :
  actions (trace_of (get_info_by_figi gw f g)) = [].
Proof.
  pose proof (get_info_by_figi_run_b64 f g) as H. cbv zeta in H. rewrite H.
  destruct (status_code (fst (market_search_by_figi_get gw f g)) =? 200)%Z;
    reflexivity.
Qed.

Lemma get_info_by_figi_figi_b64 (f : string) (g g1 : G) c t :
  get_info_by_figi gw f g = (Ret (Some c), g1, t) -> figi c = f.
Proof.
  pose proof (get_info_by_figi_run_b64 f g) as H. cbv zeta in H. rewrite H.
  destruct (_ =? 200)%Z; [| discriminate].
  destruct (_ =? 200)%Z; [| discriminate].
  now intros [= <- _ _].
Qed.

Lemma create_limit_order_run_b64 (c : CompanyData) (op : OperationType)
    (lots : Z) (g : G) :
  create_limit_order gw c op lots g =
  match income_of c with
  | Ret _ =>
      let post :=
        orders_limit_order_post gw (figi c) (limit_order c op lots) g in
      (Ret (status_code (fst post) =? 200)%Z, snd post,
       [ELimitOrderPost (figi c) (limit_order c op lots)])
  | Raise e => (Raise e, g, [])
  | OutOfFuel => (OutOfFuel, g, [])
  end.
Proof.
  unfold create_limit_order, create_order.
  replace (if OperationType_eqb op buy
           then PrimFloat.add (get_bid c) (minPriceIncrement c)
           else PrimFloat.sub (get_ask c) (minPriceIncrement c))
    with (limit_price c op) by now destruct op.
  fold (limit_order c op lots).
  unfold bind at 1. rewrite get_income_run_b64.
  destruct (income_of c) as [inc | e |] eqn:E; try reflexivity.
  unfold bind at 1. rewrite get_income_run_b64, E.
  unfold bind, call.
  destruct (orders_limit_order_post gw (figi c) (limit_order c op lots) g)
    as [response g1]; simpl.
  destruct (status_code response =? 200)%Z; reflexivity.
Qed.

Ltac monad_norm64 :=
  repeat first
    [ rewrite bind_assoc_b64 | rewrite bind_ret_l_b64
    | progress cbv beta iota ].

Lemma bind_get_income_b64 {B} (c : CompanyData) (f : float -> M G B) (g : G) :
  bind (get_income c) f g =
  match income_of c with
  | Ret inc => f inc g
  | Raise e => (Raise e, g, [])
  | OutOfFuel => (OutOfFuel, g, [])
  end.
Proof.
  unfold bind at 1. rewrite get_income_run_b64.
  destruct (income_of c); trivial. now destruct (f a g) as [[r g2] t2].
Qed.

Lemma update_body_run_b64 (min_ratio : float) (o : Order) (g g1 : G) c t1 :
  get_info_by_figi gw (order_figi o) g = (Ret (Some c), g1, t1) ->
  update_active_orders_body gw min_ratio o g =
  if drifted c o then
    match income_of c with
    | Ret inc =>
        let g2 := snd (orders_cancel_post gw (order_id o) g1) in
        let body := limit_order c (order_operation o) 1 in
        if threshold_cleared inc min_ratio (order_operation o) then
          (Ret tt, snd (orders_limit_order_post gw (figi c) body g2),
           t1 ++ [ECancel (order_id o); ELimitOrderPost (figi c) body])
        else (Ret tt, g2, t1 ++ [ECancel (order_id o)])
    | Raise e => (Raise e, g1, t1)
    | OutOfFuel => (OutOfFuel, g1, t1)
    end
  else (Ret tt, g1, t1).
Proof.
  intros H. unfold update_active_orders_body.
  rewrite (bind_ret_b64 _ _ _ _ _ _ H).
  unfold drifted, best_price, threshold_cleared.
  destruct (order_operation o) eqn:Eop;
    cbn [OperationType_eqb deref andb]; monad_norm64.
  all: destruct (float_eq _ (order_price o)); cbn [negb]; monad_norm64.
  all: try (unfold ret, prepend; cbn; now rewrite List.app_nil_r).
  all: rewrite bind_get_income_b64.
  all: destruct (income_of c) as [inc | e |] eqn:E;
    try (unfold prepend; cbn; now rewrite List.app_nil_r).
  all: rewrite bind_call_b64, !bind_get_income_b64, !E, ?andb_true_r, ?andb_false_r.
  all: monad_norm64; rewrite ?bind_get_income_b64, ?E; monad_norm64.
  all: rewrite ?andb_true_r, ?andb_false_r.
  all: destruct (fgt _ min_ratio); monad_norm64;
    rewrite ?bind_get_income_b64, ?E; monad_norm64;
    rewrite ?andb_true_r, ?andb_false_r; monad_norm64.
  all: unfold bind; rewrite ?create_limit_order_run_b64, ?E;
    unfold ret, prepend; cbn; rewrite <- ?List.app_assoc; reflexivity.
Qed.

Lemma check_done_body_run_b64 (op : Operation) (g g1 : G) c t1 :
  op_status op = done ->
  get_info_by_figi gw (op_figi op) g = (Ret (Some c), g1, t1) ->
  check_done_orders_body gw op g =
  match income_of c with
  | Ret _ =>
      let body := limit_order c (answer_side (operation_type op)) 1 in
      (Ret tt, snd (orders_limit_order_post gw (figi c) body g1),
       t1 ++ [ELimitOrderPost (figi c) body])
  | Raise e => (Raise e, g1, t1)
  | OutOfFuel => (OutOfFuel, g1, t1)
  end.
Proof.
  intros Hd H. unfold check_done_orders_body. rewrite Hd.
  cbn [OperationStatus_eqb]. rewrite (bind_ret_b64 _ _ _ _ _ _ H).
  cbn [deref]. monad_norm64.
  fold (answer_side (operation_type op)).
  unfold bind. rewrite create_limit_order_run_b64.
  destruct (income_of c); unfold ret, prepend; cbn;
    now rewrite ?List.app_nil_r.
Qed.

Lemma check_done_body_skip_b64 (op : Operation) (g : G) :
  op_status op <> done -> check_done_orders_body gw op g = (Ret tt, g, []).
Proof.
  intros Hd. unfold check_done_orders_body.
  destruct (op_status op); try reflexivity. now elim Hd.
Qed.

End Facts64.

Lemma is_valid_company_run_b64 {G} (rate : float) (c : CompanyData)
    (changed : bool) (min_income max_price : float) (g : G) :
  let gates (v : float) : Result bool * G * list event :=
    if fgt v max_price then (Ret false, g, [])
    else
      match income_of c with
      | Ret income =>
          (Ret (negb (flt income min_income)
                && negb (changed && negb (is_changed c))), g, [])
      | Raise e => (Raise e, g, [])
      | OutOfFuel => (OutOfFuel, g, [])
      end in
  is_valid_company rate c changed min_income max_price g =
  match currency c, last_price c with
  | rub, Some lp =>
      if feq rate zero then (Raise ZeroDivisionError, g, []) else gates (PrimFloat.div lp rate)
  | usd, Some lp => gates lp
  | other_currency _, _ => (Ret false, g, [])
  | _, None => (Raise TypeError, g, [])
  end.
Proof.
  intros gates. unfold is_valid_company.
  assert (Hg : forall v,
    (v0 <- as_float (Some v) ;;
     if fgt v0 max_price then ret false
     else
       income <- get_income c ;;
       if flt income min_income then ret false
       else if changed && negb (is_changed c) then ret false
       else ret true) g = gates v).
  { intros v. cbn [as_float]. rewrite bind_ret_l_b64. subst gates. cbv beta.
    destruct (fgt v max_price); [reflexivity |].
    rewrite bind_get_income_b64. destruct (income_of c); try reflexivity.
    destruct (flt a min_income); [reflexivity |].
    now destruct (changed && negb (is_changed c)). }
  destruct (currency c); [| | reflexivity].
  - destruct (last_price c) as [lp |]; [| reflexivity].
    cbn [as_float]. rewrite bind_ret_l_b64. unfold fdiv.
    destruct (feq rate zero); [reflexivity |].
    rewrite bind_ret_l_b64. apply Hg.
  - destruct (last_price c) as [lp |]; [apply Hg | reflexivity].
Qed.

Section Steady64.

Context {G : Type} (gw : Gateway G).
Variable search : string -> Response MarketInstrument.
Variable book : string -> Response Orderbook.
Hypothesis Hsteady : steady gw search book.

Lemma steady_get_info_b64 (f : string) (g : G) :
  status_code (search f) = 200%Z ->
  status_code (book f) = 200%Z ->
  exists g1,
    get_info_by_figi gw f g =
    (Ret (Some (quoted search book f)), g1,
     [ESearchByFigi f; EOrderbookGet f 1]).
Proof.
  intros Hs Hb.
  pose proof (get_info_by_figi_run_b64 gw f g) as H. cbv zeta in H.
  destruct (Hsteady f g) as [Es _].
  destruct (Hsteady f (snd (market_search_by_figi_get gw f g))) as [_ Eb].
  rewrite Es, Eb, Hs, Hb in H. cbn [Z.eqb Pos.eqb] in H.
  eexists. exact H.
Qed.

Lemma check_done_loop_b64 (ops : list Operation) :
  (forall op, In op ops -> op_status op = done ->
              evaluable search book (op_figi op)) ->
  forall g,
    result_of (for_each ops (check_done_orders_body gw) g) = Ret tt /\
    posts (trace_of (for_each ops (check_done_orders_body gw) g)) =
    map (mirror_post search book) (filter is_done ops).
Proof.
  induction ops as [| op ops IH]; intros Hev g; [now split |].
  assert (Hev' : forall op', In op' ops -> op_status op' = done ->
                             evaluable search book (op_figi op'))
    by (intros op' Hin; apply Hev; now right).
  cbn [for_each filter]. unfold is_done at 1.
  destruct (op_status op) eqn:Est; cbn [OperationStatus_eqb map].
  - destruct (Hev op (or_introl eq_refl) Est) as (Hs & Hb & inc & Hinc).
    destruct (steady_get_info_b64 (op_figi op) g Hs Hb) as [g1 Hq].
    pose proof (check_done_body_run_b64 gw op g g1 _ _ Est Hq) as Hrun.
    rewrite Hinc in Hrun. cbv zeta in Hrun.
    rewrite (bind_ret_b64 _ _ _ _ _ _ Hrun).
    destruct (IH Hev' (snd (orders_limit_order_post gw
                              (figi (quoted search book (op_figi op)))
                              (limit_order (quoted search book (op_figi op))
                                 (answer_side (operation_type op)) 1) g1)))
      as [Hr Hp].
    unfold prepend. cbn [result_of trace_of fst snd]. split; [exact Hr |].
    unfold posts in *. rewrite filter_app, Hp. reflexivity.
  - rewrite (bind_pure_b64 _ _ _ _ (check_done_body_skip_b64 gw op g
                                  ltac:(rewrite Est; discriminate))).
    now apply IH.
  - rewrite (bind_pure_b64 _ _ _ _ (check_done_body_skip_b64 gw op g
                                  ltac:(rewrite Est; discriminate))).
    now apply IH.
Qed.

End Steady64.

Lemma income_of_rounded_b64 (c : CompanyData) inc :
  income_of c = Ret inc -> inc = round_float (spec_income_ratio c).
Proof.
  unfold income_of, spec_income_ratio.
  destruct (close_price c), (last_price c); try discriminate.
  destruct (feq _ zero); now intros [= <-].
Qed.

(** ** Reconciliation: when an order is left alone *)

(** C1 (as the code has it).  In a reconciliation turn whose valuation is
    built and has an income, the order is neither cancelled nor replaced
    exactly when its price equals, after both are rounded to three decimals,
    the best bid (buy order) or the best ask (sell order) of its instrument;
    otherwise the turn issues one cancel, followed by at most one new order,
    priced one tick inside the best price. *)
Theorem reconcile_untouched_iff_at_best_price
    {G} (gw : Gateway G) (min_ratio : float) (o : Order) (g g1 : G)
    (c : CompanyData) (t1 : list event) (inc : float) :
  get_info_by_figi gw (order_figi o) g = (Ret (Some c), g1, t1) ->
  income_of c = Ret inc ->
  let acts :=
    actions (trace_of (update_active_orders_body gw min_ratio o g)) in
  let at_best :=
    float_eq (best_price c (order_operation o)) (order_price o) in
  (acts = [] <-> at_best = true) /\
  (at_best = false ->
   acts = [ECancel (order_id o)] \/
   acts = [ECancel (order_id o);
           ELimitOrderPost (order_figi o)
             (limit_order c (order_operation o) 1)]).
Proof.
  intros H Hinc acts at_best.
  pose proof (get_info_by_figi_no_action_b64 gw (order_figi o) g) as Hq.
  rewrite H in Hq. cbn [trace_of snd] in Hq.
  pose proof (get_info_by_figi_figi_b64 gw _ _ _ _ _ H) as Hf.
  subst acts. rewrite (update_body_run_b64 gw min_ratio o g g1 c t1 H), Hinc.
  unfold drifted. fold at_best.
  destruct at_best; cbn [negb].
  - cbn [trace_of snd]. rewrite Hq. split; [tauto | discriminate].
  - cbv zeta. rewrite Hf.
    destruct (threshold_cleared inc min_ratio (order_operation o));
      cbn [trace_of snd]; unfold actions in *;
      rewrite filter_app, Hq; cbn; split; try (split; discriminate);
      intros _; auto.
Qed.

(** An order at the best bid 100 is left alone; one resting at 100.0005,
    which rounds to 100.001, is cancelled and placed again. *)
Lemma reconcile_untouched_iff_at_best_price_witness :
  let o := Example.order "o1" "AAA" buy 100 4 in
  let o' := Example.order "o2" "AAA" buy 100.0005 4 in
  let acts (x : Order) :=
    actions (trace_of (update_active_orders_body (Example.gw [] []) 0.01 x
                         0%nat)) in
  acts o = [] /\
  acts o' = [ECancel "o2";
             ELimitOrderPost "AAA"
               {| lo_price := 100.5; lo_lots := 1; lo_operation := buy |}].
Proof.
  intros o o' acts.
  destruct (reconcile_untouched_iff_at_best_price (Example.gw [] []) 0.01 o
              0%nat 2%nat (Example.company "AAA")
              [ESearchByFigi "AAA"; EOrderbookGet "AAA" 1]
              0.098 eq_refl eq_refl) as [Hiff _].
  split; [apply Hiff; reflexivity | reflexivity].
Defined.

(** C1 as stated fails: an order resting at best bid + tick, the price the
    pricer would give it, is cancelled and replaced all the same. *)
Lemma reconcile_at_pricer_price_not_untouched :
  let o := Example.order "o1" "AAA" buy 100.5 4 in
  let c := Example.company "AAA" in
  ~ (actions (trace_of (update_active_orders_body (Example.gw [] []) 0.01 o
                          0%nat)) = []
     <-> float_eq (limit_price c buy) (order_price o) = true).
Proof.
  intros o c [_ H]. specialize (H eq_refl). vm_compute in H. discriminate.
Qed.

(** ** Reconciliation: replacing a cancelled order *)

(** C3 (as the code has it).  Once an order has drifted and its valuation has
    an income, the turn cancels it and then submits the new order exactly when
    the income ratio, rounded to three decimals as [get_income] returns it,
    clears the threshold: above [min_ratio] for a buy order, of absolute value
    above [min_ratio] for a sell order.  Below the threshold nothing is
    submitted. *)
Theorem reconcile_replaces_iff_rounded_income_clears
    {G} (gw : Gateway G) (min_ratio : float) (o : Order) (g g1 : G)
    (c : CompanyData) (t1 : list event) (inc : float) :
  get_info_by_figi gw (order_figi o) g = (Ret (Some c), g1, t1) ->
  income_of c = Ret inc ->
  drifted c o = true ->
  let op := order_operation o in
  let cleared :=
    threshold_cleared (round_float (spec_income_ratio c)) min_ratio op in
  actions (trace_of (update_active_orders_body gw min_ratio o g)) =
  ECancel (order_id o) ::
  (if cleared then [ELimitOrderPost (order_figi o) (limit_order c op 1)]
   else []).
Proof.
  intros H Hinc Hd op cleared.
  pose proof (get_info_by_figi_no_action_b64 gw (order_figi o) g) as Hq.
  rewrite H in Hq. cbn [trace_of snd] in Hq.
  pose proof (get_info_by_figi_figi_b64 gw _ _ _ _ _ H) as Hf.
  rewrite (update_body_run_b64 gw min_ratio o g g1 c t1 H), Hd, Hinc.
  cbv zeta. subst cleared op.
  rewrite <- (income_of_rounded_b64 c inc Hinc), Hf.
  destruct (threshold_cleared inc min_ratio (order_operation o));
    cbn [trace_of snd]; unfold actions in *; now rewrite filter_app, Hq.
Qed.

(** With close 101.25, bid 100 and last 100 the ratio computes to a value
    that rounds to 0.013, above the threshold 0.012: the cancelled buy order
    is replaced. *)
Lemma reconcile_replaces_iff_rounded_income_clears_witness :
  let o := Example.order "o1" "TIE" buy 99 4 in
  actions (trace_of (update_active_orders_body (Example.gw [] []) 0.012 o
                       0%nat)) =
  [ECancel "o1";
   ELimitOrderPost "TIE"
     {| lo_price := 100.5; lo_lots := 1; lo_operation := buy |}].
Proof.
  intros o.
  exact (reconcile_replaces_iff_rounded_income_clears (Example.gw [] []) 0.012
           o 0%nat 2%nat (Example.company "TIE")
           [ESearchByFigi "TIE"; EOrderbookGet "TIE" 1] 0.013
           eq_refl eq_refl eq_refl).
Defined.

(** C3 as stated fails: with close 101.04, bid 100 and last 100 the income
    ratio 0.0104 is above the threshold 0.01, yet the cancelled buy order is
    not replaced, because the code compares the rounded 0.010. *)
Lemma reconcile_unrounded_ratio_not_replaced :
  let o := Example.order "o1" "BBB" buy 99 4 in
  let c := Example.company "BBB" in
  let t := trace_of (update_active_orders_body (Example.gw [] []) 0.01 o
                       0%nat) in
  actions t = [ECancel "o1"] /\
  ~ (posts t <> [] <-> spec_threshold_cleared c 0.01 buy = true).
Proof.
  intros o c t. split; [reflexivity |].
  intros [_ H]. apply H; reflexivity.
Qed.

(** ** Candidate screener *)

(** C4 (as the code has it).  A valuation in a currency other than roubles
    and dollars is rejected.  For a valuation with a close price and a
    non-zero last price the screener returns without raising and accepts
    exactly when the three gates pass: the last price - as it is for a dollar
    quote, divided by the (non-zero) exchange rate in floating point for a
    rouble quote - is not above the cap; the income ratio rounded to three
    decimals is not below the minimum; and the valuation has changed today
    whenever that is required. *)
Theorem screener_gates
    {G} (rate : float) (c : CompanyData) (changed : bool)
    (min_income max_price : float) (g : G) :
  (forall code, currency c = other_currency code ->
     is_valid_company rate c changed min_income max_price g
     = (Ret false, g, [])) /\
  (forall lp cp,
     last_price c = Some lp ->
     close_price c = Some cp ->
     feq lp zero = false ->
     let income :=
       round_float (PrimFloat.div (PrimFloat.sub cp (price (bid c))) lp) in
     let gates (normalized : float) :=
       negb (fgt normalized max_price)
       && negb (flt income min_income)
       && (negb changed || is_changed c) in
     (currency c = usd ->
      is_valid_company rate c changed min_income max_price g
      = (Ret (gates lp), g, [])) /\
     (currency c = rub -> feq rate zero = false ->
      is_valid_company rate c changed min_income max_price g
      = (Ret (gates (PrimFloat.div lp rate)), g, []))).
Proof.
  pose proof (is_valid_company_run_b64 rate c changed min_income max_price g)
    as H.
  cbv zeta in H. rewrite H. clear H. split.
  - intros code ->. reflexivity.
  - intros lp cp Hlp Hcp Hz income gates.
    assert (Hi : income_of c = Ret income).
    { unfold income_of. now rewrite Hlp, Hcp, Hz. }
    rewrite Hlp, Hi. subst gates. cbv beta.
    split.
    + intros ->. destruct (fgt lp max_price); cbn [negb andb];
        [reflexivity |].
      destruct (flt income min_income); cbn [negb andb]; [reflexivity |].
      now destruct changed, (is_changed c).
    + intros -> Hr. rewrite Hr.
      destruct (fgt (PrimFloat.div lp rate) max_price); cbn [negb andb];
        [reflexivity |].
      destruct (flt income min_income); cbn [negb andb]; [reflexivity |].
      now destruct changed, (is_changed c).
Qed.

(** A rouble quote of 9100 at rate 91 computes to exactly the cap 100 and is
    accepted; one of 601.20 at rate 60.12 computes to 10.000000000000002 and
    is rejected under a cap of 10. *)
Lemma screener_gates_witness :
  is_valid_company 91 (Example.rouble "RRR" 9000 9100 9500) true 0.01 100
    0%nat = (Ret true, 0%nat, []) /\
  is_valid_company 60.12 (Example.rouble "SSS" 600 601.20 650) false 0.01 10
    0%nat = (Ret false, 0%nat, []).
Proof.
  split.
  - exact (proj2 (proj2 (screener_gates 91
                           (Example.rouble "RRR" 9000 9100 9500) true 0.01
                           100 0%nat) 9100%float 9500%float eq_refl eq_refl eq_refl)
             eq_refl eq_refl).
  - exact (proj2 (proj2 (screener_gates 60.12
                           (Example.rouble "SSS" 600 601.20 650) false 0.01
                           10 0%nat) 601.20%float 650%float eq_refl eq_refl eq_refl)
             eq_refl eq_refl).
Defined.

(** C4 as stated fails: with close 100.96, bid 100 and last 100 the income
    ratio 0.0096 is below the minimum 0.01, yet the screener accepts, because
    it compares the rounded 0.010. *)
Lemma screener_accepts_below_minimum :
  let c := Example.company "CCC" in
  ~ (result_of (is_valid_company 91 c false 0.01 1000 0%nat) = Ret true
     <-> spec_is_eligible 91 c false 0.01 1000 = true).
Proof.
  intros c [H _]. specialize (H eq_refl). vm_compute in H. discriminate.
Qed.

(** ** Order pricer *)

Lemma py_round_nearest (x : float) (n : nat) :
  is_ordinary x = true ->
  exists negative k,
    py_round x n = nearest_decimal negative k n /\
    (Qabs (inject_Z k - to_Q x * pow10 n) <= 1 # 2)%Q.
Proof.
  unfold is_ordinary, py_round.
  destruct (FloatOps.Prim2SF x) as [s | s | | s m e] eqn:E; try discriminate.
  intros _. exists s, (round_half_even (to_Q x * pow10 n)).
  split; [reflexivity |].
  destruct (round_half_even_bounds (to_Q x * pow10 n)) as [Hlo Hhi].
  apply Qabs_Qle_condition. split; lra.
Qed.




(** ** Settlement responder *)




End B64Properties.
